(** * Mojo V3 SDRAM SoC: the composition script of [sdram-soc/mojov3.py]

    The script is a thin composition over LiteX/Migen cores.  What the script
    itself does (the pin catalog, the [Platform] class, the clock and reset
    generator [_CRG], the [BaseSoC] constructor, the module body and [main])
    is transcribed from the Python text.  The cores it calls live outside the
    repository; each of them is given a small executable model whose doc
    comment starts with "Modelled from the spec:", or is left a field of
    the class [Cores] where the specification treats it as an opaque
    capability. *)

From Stdlib Require Import ZArith Ascii String Floats.PrimFloat.
From stdpp Require Import base gmap strings list.

Local Open Scope string_scope.
Local Open Scope list_scope.
Local Open Scope Z_scope.

(** ** Errors and the construction monad *)

(** The error taxonomy of the specification (section 7), with Python's
    [KeyError] for a missing dictionary key. *)
Inductive Error : Type :=
  | ResourceNotFoundError (name : string) (number : option nat)
  | ResourceAlreadyBoundError (name : string) (number : nat)
  | MultipleInputClockError
  | UnsupportedRatioError (input_freq target_freq : Z)
  | GraphFinalizedError
  | UnsupportedGeometryError (module rate : string)
  | MisalignedRegionError (origin size : Z)
  | CacheGeometryError (line_count min_data_width : Z)
  | CompositionError (violations : list string)
  | KeyError (key : string).

(** A Python statement sequence over a mutable object of type [S]: either an
    exception, or a value and the object as the statements left it. *)
Definition St (S A : Type) : Type := S → Error + (A * S).

#[export] Instance St_ret {S} : MRet (St S) := λ A x s, inr (x, s).

#[export] Instance St_bind {S} : MBind (St S) :=
  λ A B f m s, match m s with inl e => inl e | inr (x, s') => f x s' end.

Definition raise {S A} (e : Error) : St S A := λ _, inl e.

Definition get {S} : St S S := λ s, inr (s, s).

Definition modify {S} (f : S → S) : St S unit := λ s, inr (tt, f s).

(** A call that only computes (and may raise), made inside a sequence. *)
Definition lift {S A} (r : Error + A) : St S A :=
  λ s, match r with inl e => inl e | inr x => inr (x, s) end.

(** The object a statement sequence leaves behind. *)
Definition exec {S A} (m : St S A) (s : S) : Error + S :=
  match m s with inl e => inl e | inr (_, s') => inr s' end.

(** ** The resource catalog *)

#[warnings="-register-all"]
Inductive Constraint : Type :=
  | Pins (identifiers : string)
  | IOStandard (name : string)
  | Misc (misc : string)
  | Subsignal (name : string) (constraints : list Constraint).

(** One entry of the catalog: a Python tuple [(name, number, constraint, ...)]. *)
Record Resource : Type := mkResource {
  res_name : string;
  res_number : nat;
  res_constraints : list Constraint
}.

Definition _io : list Resource := [
  (* Clk / Rst *)
  mkResource "clk50" 0 [Pins "P56"; IOStandard "LVTTL"];
  mkResource "cpu_reset" 0 [Pins "P38"; IOStandard "LVTTL"];
  (* Leds *)
  mkResource "user_led" 0 [Pins "P134"; IOStandard "LVTTL"];
  mkResource "user_led" 1 [Pins "P133"; IOStandard "LVTTL"];
  mkResource "user_led" 2 [Pins "P132"; IOStandard "LVTTL"];
  mkResource "user_led" 3 [Pins "P131"; IOStandard "LVTTL"];
  mkResource "user_led" 4 [Pins "P127"; IOStandard "LVTTL"];
  mkResource "user_led" 5 [Pins "P126"; IOStandard "LVTTL"];
  mkResource "user_led" 6 [Pins "P124"; IOStandard "LVTTL"];
  mkResource "user_led" 7 [Pins "P123"; IOStandard "LVTTL"];
  (* uart *)
  mkResource "serial" 0 [
    Subsignal "tx" [Pins "P50"];
    Subsignal "rx" [Pins "P51"];
    IOStandard "LVTTL"];
  (* avr signals *)
  mkResource "tx_busy" 0 [Pins "P39"; IOStandard "LVTTL"];
  mkResource "cclk" 0 [Pins "P70"; IOStandard "LVTTL"];
  (* sdram (HDMI shield) *)
  mkResource "sdram_clock" 0 [Pins "P29"; IOStandard "LVTTL"; Misc "SLEW=FAST"];
  mkResource "sdram" 0 [
    Subsignal "a" [Pins "P101 P102 P104 P105 P5 P6 P7 P8 P9 P10 P88 P27 P26"];
    Subsignal "dq" [Pins "P75 P78 P79 P80 P34 P35 P40 P41"];
    Subsignal "ba" [Pins "P85 P87"];
    Subsignal "dm" [Pins "P74"];
    Subsignal "ras_n" [Pins "P83"];
    Subsignal "cas_n" [Pins "P82"];
    Subsignal "we_n" [Pins "P81"];
    Subsignal "cs_n" [Pins "P84"];
    Subsignal "cke" [Pins "P30"];
    IOStandard "LVTTL";
    Misc "SLEW = FAST"]
].

(** The key a resource is bound under. *)
Definition res_key (r : Resource) : string * nat := (res_name r, res_number r).

(** The pin identifiers a resource carries at its top level: [Pins] takes
    them as one string, separated by white space. *)
Definition top_pins (r : Resource) : list string :=
  flat_map (λ c, match c with Pins ids => String.words ids | _ => [] end)
           (res_constraints r).

(** The width of the signal a resource without subsignals is requested as. *)
Definition nbits (r : Resource) : nat := length (top_pins r).

(** ** The platform object *)

(** The state of a [XilinxPlatform] instance, as far as the script touches
    it.  [default_clk_name] and [default_clk_period] are the class attributes
    a subclass sets; [bound] is the set of already requested resources;
    [period_constraints] is the toolchain's table of clock constraints, one
    period (in ns) per clock resource. *)
Record XilinxPlatform : Type := mkPlatform {
  device : string;
  io : list Resource;
  default_clk_name : string;
  default_clk_period : float;
  bound : gset (string * nat);
  additional_commands : list string;
  period_constraints : gmap (string * nat) float
}.

Definition set_bound (f : gset (string * nat) → gset (string * nat))
    (p : XilinxPlatform) : XilinxPlatform :=
  mkPlatform (device p) (io p) (default_clk_name p) (default_clk_period p)
             (f (bound p)) (additional_commands p) (period_constraints p).

Definition set_additional_commands (cmds : list string)
    (p : XilinxPlatform) : XilinxPlatform :=
  mkPlatform (device p) (io p) (default_clk_name p) (default_clk_period p)
             (bound p) cmds (period_constraints p).

Definition set_period_constraints
    (f : gmap (string * nat) float → gmap (string * nat) float)
    (p : XilinxPlatform) : XilinxPlatform :=
  mkPlatform (device p) (io p) (default_clk_name p) (default_clk_period p)
             (bound p) (additional_commands p) (f (period_constraints p)).

(** The catalog entry a name and an optional number stand for; without a
    number, the first entry of that name. *)
Definition lookup_resource (cat : list Resource) (name : string)
    (number : option nat) : option Resource :=
  List.find (λ r, bool_decide (res_name r = name) &&
                  match number with
                  | None => true
                  | Some n => bool_decide (res_number r = n)
                  end) cat.

(** Modelled from the spec: [request] of the platform base class, which is
    not part of the repository (section 4.1): it fails with
    [ResourceNotFoundError] if the name or number is unknown, fails with
    [ResourceAlreadyBoundError] unless [loose] is set or the resource has not
    yet been bound, and otherwise marks the resource as bound and returns it. *)
Definition request (name : string) (number : option nat) (loose : bool)
    : St XilinxPlatform Resource :=
  λ p, match lookup_resource (io p) name number with
       | None => inl (ResourceNotFoundError name number)
       | Some r =>
           if bool_decide (res_key r ∈ bound p) && negb loose
           then inl (ResourceAlreadyBoundError (res_name r) (res_number r))
           else inr (r, set_bound (λ b, {[res_key r]} ∪ b) p)
       end.

(** Modelled from the spec: [request_all] of the platform base class (section
    4.1): every number registered under the name, each individually
    bind-checked. *)
Definition request_all (name : string) : St XilinxPlatform (list Resource) :=
  λ p, mapM (λ r : Resource, request name (Some (res_number r)) false)
            (List.filter (λ r, bool_decide (res_name r = name)) (io p)) p.

(** Modelled from the spec: [lookup_request] of the platform base class.
    Section 4.1 makes the bound state observable by the finalization step;
    this is that observation: the resource if it has been bound, and nothing
    is bound by the call.  With [loose] a missing binding is [None] instead
    of an error. *)
Definition lookup_request (name : string) (number : option nat) (loose : bool)
    : St XilinxPlatform (option Resource) :=
  λ p, match lookup_resource (io p) name number with
       | Some r =>
           if bool_decide (res_key r ∈ bound p) then inr (Some r, p)
           else if loose then inr (None, p)
           else inl (ResourceNotFoundError name number)
       | None =>
           if loose then inr (None, p)
           else inl (ResourceNotFoundError name number)
       end.

(** Modelled from the spec: [add_period_constraint] of the platform base
    class.  The toolchain keeps one period per clock resource (section 4.1:
    exactly one constraint per distinct clock resource), so a repeated
    emission for the same clock replaces the entry.  A call without a clock
    ([None], which Python would fail on) is a composition error. *)
Definition add_period_constraint (clk : option Resource) (period : float)
    : St XilinxPlatform unit :=
  match clk with
  | Some r => modify (set_period_constraints (λ m, <[res_key r := period]> m))
  | None => raise (CompositionError ["period constraint without a clock"])
  end.

(** Modelled from the spec: the constructor of the platform base class; it
    stores the device and the catalog, with nothing bound and no constraint. *)
Definition XilinxPlatform__init__ (dev : string) (cat : list Resource)
    (clk_name : string) (clk_period : float) : XilinxPlatform :=
  mkPlatform dev cat clk_name clk_period ∅ [] ∅.

(** Modelled from the spec: [do_finalize] of the platform base class.  The
    platform records a default input clock and its period for the generation
    of timing constraints (section 2, item 2); the base finalization emits
    that constraint when the default clock has been bound. *)
Definition XilinxPlatform_do_finalize : St XilinxPlatform unit :=
  p ← get;
  clk ← lookup_request (default_clk_name p) None true;
  match clk with
  | Some r => add_period_constraint (Some r) (default_clk_period p)
  | None => mret tt
  end.

(** The design handed to the finalization: the clock domains of the graph. *)
Record ClockDomain : Type := mkClockDomain {
  cd_name : string;
  cd_reset_less : bool
}.

Definition Fragment : Type := list ClockDomain.

Module Platform.

Definition default_clk_name : string := "clk50".

Definition default_clk_period : float := (1e9 / 50e6)%float.

Definition __init__ : XilinxPlatform :=
  let self := XilinxPlatform__init__ "xc6slx9-3-tqg144" _io
                default_clk_name default_clk_period in
  set_additional_commands ["write_bitstream -force -bin_file {build_name}"] self.

Definition do_finalize (fragment : Fragment) : St XilinxPlatform unit :=
  XilinxPlatform_do_finalize;;
  clk ← lookup_request "clk50" None true;
  add_period_constraint clk (1e9 / 50e6)%float.

End Platform.

(** ** The opaque cores

    The phase-locked multiplier, the memory-module catalog and the fixed
    address layout of the SoC base class are outside the repository and
    outside the specification's scope (section 9: black-box capability
    interfaces).  They are the parameters of every definition below. *)

(** The timing profile a catalog entry selects, as far as composition needs
    it: how many bytes the module addresses and the width of the controller's
    native word. *)
Record Geometry : Type := mkGeometry {
  addressable_bytes : Z;
  native_word_bits : Z
}.

Class Cores : Type := mkCores {
  (** whether the multiplier reaches a target frequency from an input
      frequency (both in Hz) with a ratio of its supported table *)
  pll_ratio_supported : Z → Z → bool;
  (** the catalog of memory modules, keyed by module identifier and
      clock-ratio mode *)
  sdram_catalog : string → string → option Geometry;
  (** the fixed memory map of the SoC base class ([SoCCore.mem_map]) *)
  mem_map : gmap string Z;
  (** where the control/status register blocks start, and the size of one *)
  csr_base : Z;
  csr_paging : Z
}.

(** ** Signals and expressions *)

(** The Migen expressions the script builds: requested pads, bitwise
    complement and bitwise or. *)
Inductive Expr : Type :=
  | Sig (pad : Resource)
  | Not (e : Expr)
  | Or (a b : Expr).

Fixpoint width (e : Expr) : nat :=
  match e with
  | Sig pad => nbits pad
  | Not a => width a
  | Or a b => Nat.max (width a) (width b)
  end.

(** The value of an expression when the pads carry the levels [env]; a pad
    of [n] pins is an unsigned [n]-bit value, and the complement inverts
    exactly those bits. *)
Fixpoint eval (env : string * nat → Z) (e : Expr) : Z :=
  match e with
  | Sig pad => env (res_key pad) `mod` 2 ^ Z.of_nat (nbits pad)
  | Not a => Z.lxor (eval env a) (Z.ones (Z.of_nat (width a)))
  | Or a b => Z.lor (eval env a) (eval env b)
  end.

(** A combinatorial assignment [target.eq(value)] to a signal of
    [target_bits] bits. *)
Record Assign : Type := mkAssign {
  target : string;
  target_bits : nat;
  value : Expr
}.

(** The level an assignment drives its target to. *)
Definition driven (env : string * nat → Z) (a : Assign) : Z :=
  eval env (value a) `mod` 2 ^ Z.of_nat (target_bits a).

(** [ClockDomain()] assigned to the attribute [cd_<name>] of
    [self.clock_domains] is the domain called [<name>]. *)
Definition clock_domain_of_attr (attr : string) (reset_less : bool) : ClockDomain :=
  mkClockDomain
    match attr with
    | String "c"%char (String "d"%char (String "_"%char name)) => name
    | _ => attr
    end
    reset_less.

(** ** The phase-locked multiplier *)

Inductive PLLState : Type := unconfigured | clocked | finalized.

Record ClkOut : Type := mkClkOut {
  out_cd : ClockDomain;
  out_freq : Z;
  out_phase : Z
}.

Record S6PLL : Type := mkS6PLL {
  speedgrade : Z;
  pll_state : PLLState;
  clkin : option (Resource * Z);
  clkouts : list ClkOut
}.

(** Modelled from the spec: the constructor of the multiplier core; no input
    clock and no output yet (state unconfigured, section 4.2). *)
Definition S6PLL__init__ (speedgrade : Z) : S6PLL :=
  mkS6PLL speedgrade unconfigured None [].

(** Modelled from the spec: [register_input] of section 4.2: exactly one
    input may be registered; a second call fails with
    [MultipleInputClockError]. *)
Definition register_clkin (pll : S6PLL) (clk : Resource) (freq : Z)
    : Error + S6PLL :=
  match pll_state pll with
  | unconfigured =>
      inr (mkS6PLL (speedgrade pll) clocked (Some (clk, freq)) (clkouts pll))
  | _ => inl MultipleInputClockError
  end.

(** Modelled from the spec: [create_domain] of section 4.2, with the domain
    passed in as the code does: it fails with [UnsupportedRatioError] if the
    multiplier has no ratio for the target frequency, with
    [GraphFinalizedError] after finalization, and otherwise records the
    output.  The spec gives no transition from the unconfigured state; the
    call is rejected there. *)
Definition create_clkout `{Cores} (pll : S6PLL) (cd : ClockDomain)
    (freq : Z) (phase : Z) : Error + S6PLL :=
  match pll_state pll, clkin pll with
  | clocked, Some (_, input_freq) =>
      if pll_ratio_supported input_freq freq
      then inr (mkS6PLL (speedgrade pll) clocked (clkin pll)
                        (clkouts pll ++ [mkClkOut cd freq phase]))
      else inl (UnsupportedRatioError input_freq freq)
  | finalized, _ => inl GraphFinalizedError
  | _, _ => inl (CompositionError ["clock output without an input clock"])
  end.

(** Modelled from the spec: [finalize] of section 4.2: clocked to finalized;
    a second call fails with [GraphFinalizedError]. *)
Definition pll_finalize (pll : S6PLL) : Error + S6PLL :=
  match pll_state pll with
  | clocked => inr (mkS6PLL (speedgrade pll) finalized (clkin pll) (clkouts pll))
  | finalized => inl GraphFinalizedError
  | unconfigured => inl (CompositionError ["no input clock registered"])
  end.

(** The special [DDROutput(i1, i2, o, clk)]: a double-data-rate output cell
    on pad [o], clocked by [ClockSignal(clk)]. *)
Record DDROutput : Type := mkDDROutput {
  ddr_i1 : Z;
  ddr_i2 : Z;
  ddr_o : Resource;
  ddr_clk : string
}.

(** ** The clock and reset generator *)

Module _CRG.

Record t : Type := mk {
  clock_domains : list ClockDomain;
  pll : S6PLL;
  comb : list Assign;
  specials : list DDROutput
}.

Definition __init__ `{Cores} (sys_clk_freq : Z) : St XilinxPlatform t :=
  let cd_sys := clock_domain_of_attr "cd_sys" false in
  let cd_sys_ps := clock_domain_of_attr "cd_sys_ps" true in
  (* PLL *)
  let pll := S6PLL__init__ (-2) in
  cpu_reset ← request "cpu_reset" None false;
  cclk ← request "cclk" None false;
  let comb := [mkAssign "pll.reset" 1 (Or (Not (Sig cpu_reset)) (Not (Sig cclk)))] in
  clk50 ← request "clk50" None false;
  pll ← lift (register_clkin pll clk50 50000000);
  pll ← lift (create_clkout pll cd_sys sys_clk_freq 0);
  pll ← lift (create_clkout pll cd_sys_ps sys_clk_freq 90);
  (* SDRAM clock *)
  sdram_clock ← request "sdram_clock" None false;
  mret (mk [cd_sys; cd_sys_ps] pll comb [mkDDROutput 1 0 sdram_clock "sys_ps"]).

End _CRG.

(** ** The SoC under construction *)

Record CacheParams : Type := mkCacheParams {
  l2_cache_size : Z;
  l2_cache_min_data_width : Z;
  l2_cache_reverse : bool
}.

(** A memory-module descriptor: the module identifier, the clock it is
    timed for, the clock-ratio mode, and the profile the catalog has for it. *)
Record SDRAMModule : Type := mkSDRAMModule {
  module_id : string;
  module_clk_freq : Z;
  module_rate : string;
  module_geometry : Geometry
}.

(** Modelled from the spec: the constructor of the module descriptor (section
    4.3): the profile is selected from the catalog by module identifier and
    clock-ratio mode; a combination absent from the catalog is an
    [UnsupportedGeometryError]. *)
Definition MT48LC32M8 `{Cores} (clk_freq : Z) (rate : string)
    : Error + SDRAMModule :=
  match sdram_catalog "MT48LC32M8" rate with
  | Some g => inr (mkSDRAMModule "MT48LC32M8" clk_freq rate g)
  | None => inl (UnsupportedGeometryError "MT48LC32M8" rate)
  end.

(** The cores the script instantiates as submodules, each with the
    arguments the script gives it. *)
Inductive Core : Type :=
  | CRG (crg : _CRG.t)
  | GENSDRPHY (pads : Resource)
  | DNA
  | LedChaser (pads : list Resource) (sys_clk_freq : Z).

(** A region of the address space backed by the memory subsystem.
    [region_clock_domain] is the clock-domain handle the composition was
    given, [None] when the caller passed none. *)
Record MemoryRegion : Type := mkMemoryRegion {
  region_name : string;
  region_origin : Z;
  region_size : Z;
  region_clock_domain : option string;
  region_phy : Core;
  region_module : SDRAMModule;
  region_cache : CacheParams
}.

Record SoCCore : Type := mkSoCCore {
  platform : XilinxPlatform;
  sys_clk_freq : Z;
  ident : string;
  ident_version : bool;
  integrated_main_ram_size : Z;
  submodules : list (string * Core);
  regions : list MemoryRegion;
  csr_names : list string
}.

Definition set_platform (p : XilinxPlatform) (s : SoCCore) : SoCCore :=
  mkSoCCore p (sys_clk_freq s) (ident s) (ident_version s)
            (integrated_main_ram_size s) (submodules s) (regions s) (csr_names s).

Definition set_submodules (subs : list (string * Core)) (s : SoCCore) : SoCCore :=
  mkSoCCore (platform s) (sys_clk_freq s) (ident s) (ident_version s)
            (integrated_main_ram_size s) subs (regions s) (csr_names s).

(** A platform call made from inside the SoC constructor. *)
Definition on_platform {A} (m : St XilinxPlatform A) : St SoCCore A :=
  λ s, match m (platform s) with
       | inl e => inl e
       | inr (x, p) => inr (x, set_platform p s)
       end.

(** [self.submodules.<name> = core] *)
Definition add_submodule (name : string) (core : Core) : St SoCCore unit :=
  modify (λ s, mkSoCCore (platform s) (sys_clk_freq s) (ident s) (ident_version s)
                         (integrated_main_ram_size s)
                         (submodules s ++ [(name, core)]) (regions s) (csr_names s)).

(** Modelled from the spec: the constructor of the SoC base class, the
    surrounding SoC context of section 4.4.  It keeps the platform, the
    system clock frequency and the identification string, and answers the
    capability query for pre-integrated memory from the keyword arguments
    (absent means none). *)
Definition SoCCore__init__ (platform : XilinxPlatform) (clk_freq : Z)
    (ident : string) (ident_version : bool) (kwargs : gmap string Z) : SoCCore :=
  mkSoCCore platform clk_freq ident ident_version
            (default 0 (kwargs !! "integrated_main_ram_size")) [] [] [].

(** Modelled from the spec: [add_csr] of the SoC base class (section 4.4,
    step 4): the peripheral's control/status block takes the next free slot
    of the register area. *)
Definition add_csr (name : string) : St SoCCore unit :=
  modify (λ s, mkSoCCore (platform s) (sys_clk_freq s) (ident s) (ident_version s)
                         (integrated_main_ram_size s)
                         (submodules s) (regions s) (csr_names s ++ [name])).

Definition is_power_of_two (n : Z) : bool :=
  (0 <? n) && (Z.land n (n - 1) =? 0).

(** Modelled from the spec: [add_sdram] of the SoC base class, the [compose]
    of section 4.3, with the keyword names of the code.  The clock-domain
    handle of the spec's contract is optional here because the code passes
    none.  It validates that the size is addressable by the geometry, that
    the origin is aligned to the size, and the cache geometry, and then
    registers the region into the address map of the SoC. *)
Definition add_sdram (name : string) (clock_domain : option string)
    (phy : Core) (module : SDRAMModule) (origin size : Z)
    (l2_cache_size l2_cache_min_data_width : Z) (l2_cache_reverse : bool)
    : St SoCCore unit :=
  if negb (size <=? addressable_bytes (module_geometry module)) then
    raise (UnsupportedGeometryError (module_id module) (module_rate module))
  else if negb (origin `mod` size =? 0) then
    raise (MisalignedRegionError origin size)
  else if negb (is_power_of_two l2_cache_size)
          || (native_word_bits (module_geometry module) <? l2_cache_min_data_width) then
    raise (CacheGeometryError l2_cache_size l2_cache_min_data_width)
  else
    modify (λ s, mkSoCCore (platform s) (sys_clk_freq s) (ident s) (ident_version s)
                           (integrated_main_ram_size s) (submodules s)
                           (regions s ++
                              [mkMemoryRegion name origin size clock_domain phy module
                                 (mkCacheParams l2_cache_size l2_cache_min_data_width
                                                l2_cache_reverse)])
                           (csr_names s)).

(** [self.mem_map[key]], a dictionary access. *)
Definition mem_map_get `{Cores} (key : string) : Error + Z :=
  match mem_map !! key with
  | Some a => inr a
  | None => inl (KeyError key)
  end.

Module BaseSoC.

Definition default_sys_clk_freq : Z := 66666666.

Definition __init__ `{Cores} (sys_clk_freq : Z) (kwargs : gmap string Z)
    : Error + SoCCore :=
  let platform := Platform.__init__ in
  let self := SoCCore__init__ platform sys_clk_freq "Mojo V3 SoC" true kwargs in
  exec
    (crg ← on_platform (_CRG.__init__ sys_clk_freq);
     add_submodule "crg" (CRG crg);;
     (* SDR SDRAM *)
     self ← get;
     (if bool_decide (integrated_main_ram_size self = 0) then
        pads ← on_platform (request "sdram" None false);
        add_submodule "sdrphy" (GENSDRPHY pads);;
        module ← lift (MT48LC32M8 sys_clk_freq "1:1");
        origin ← lift (mem_map_get "main_ram");
        (* the call names no clock domain: [None] *)
        add_sdram "sdram" None (GENSDRPHY pads) module origin 0x2000000 1024 128 true
      else mret tt);;
     (* FPGA identification *)
     add_submodule "dna" DNA;;
     add_csr "dna";;
     (* Led *)
     pads ← on_platform (request_all "user_led");
     add_submodule "leds" (LedChaser pads sys_clk_freq);;
     add_csr "leds") self.

End BaseSoC.

(** ** Finalization, validation and the build *)

Record AddressEntry : Type := mkAddressEntry {
  entry_name : string;
  entry_base : Z;
  entry_size : Z
}.

(** The global address map: the registered memory regions, then the
    control/status block of every peripheral in the order of registration. *)
Definition address_map `{Cores} (s : SoCCore) : list AddressEntry :=
  ((λ r, mkAddressEntry (region_name r) (region_origin r) (region_size r))
     <$> regions s) ++
  imap (λ i name, mkAddressEntry name (csr_base + Z.of_nat i * csr_paging) csr_paging)
       (csr_names s).

(** The addresses of an entry: the half-open range from its base. *)
Definition in_range (a : AddressEntry) (x : Z) : Prop :=
  entry_base a ≤ x < entry_base a + entry_size a.

(** Whether the half-open ranges of two entries share an address. *)
Definition overlaps (a b : AddressEntry) : bool :=
  Z.max (entry_base a) (entry_base b)
  <? Z.min (entry_base a + entry_size a) (entry_base b + entry_size b).

Fixpoint overlap_violations (l : list AddressEntry) : list string :=
  match l with
  | [] => []
  | a :: rest =>
      flat_map (λ b, if overlaps a b
                     then [entry_name a +:+ " overlaps " +:+ entry_name b]
                     else []) rest
      ++ overlap_violations rest
  end.

(** The clock domains a core defines, and the ones it refers to by name. *)
Definition defined_domains (c : Core) : list string :=
  match c with
  | CRG crg => cd_name <$> _CRG.clock_domains crg
  | _ => []
  end.

Definition referenced_domains (c : Core) : list string :=
  match c with
  | CRG crg => (cd_name ∘ out_cd <$> clkouts (_CRG.pll crg))
               ++ (ddr_clk <$> _CRG.specials crg)
  | _ => []
  end.

Definition clock_violations (s : SoCCore) : list string :=
  let defined := flat_map (defined_domains ∘ snd) (submodules s) in
  let referenced :=
    flat_map (referenced_domains ∘ snd) (submodules s)
    ++ omap region_clock_domain (regions s) in
  (λ n, "unbound clock domain " +:+ n)
    <$> List.filter (λ n, negb (bool_decide (n ∈ defined))) referenced.

(** Finalization of a core: the clock graph goes from clocked to finalized. *)
Definition finalize_core (c : Core) : Error + Core :=
  match c with
  | CRG crg =>
      match pll_finalize (_CRG.pll crg) with
      | inl e => inl e
      | inr pll => inr (CRG (_CRG.mk (_CRG.clock_domains crg) pll
                                     (_CRG.comb crg) (_CRG.specials crg)))
      end
  | _ => inr c
  end.

Fixpoint finalize_submodules (l : list (string * Core))
    : Error + list (string * Core) :=
  match l with
  | [] => inr []
  | (name, c) :: rest =>
      match finalize_core c with
      | inl e => inl e
      | inr c' =>
          match finalize_submodules rest with
          | inl e => inl e
          | inr rest' => inr ((name, c') :: rest')
          end
      end
  end.

(** What a build hands to the toolchain: the graph, its address map, and
    the timing constraints of the platform; [graph_run] tells whether the
    final output is to be emitted. *)
Record SoCGraph : Type := mkSoCGraph {
  graph_soc : SoCCore;
  graph_address_map : list AddressEntry;
  graph_constraints : gmap (string * nat) float;
  graph_run : bool
}.

(** Modelled from the spec: [Builder(soc).build(run)], steps 5 of section 4.4
    and the handoff of section 6: the cores are finalized, the global
    validation runs (no two address-map entries overlap, every referenced
    clock domain exists; any violation is a [CompositionError] naming the
    offenders), and the platform is finalized, which emits the timing
    constraints. *)
Definition Builder_build `{Cores} (s : SoCCore) (run : bool) : Error + SoCGraph :=
  match finalize_submodules (submodules s) with
  | inl e => inl e
  | inr subs =>
      let s := set_submodules subs s in
      match overlap_violations (address_map s) ++ clock_violations s with
      | [] =>
          let fragment := flat_map (λ nc, match snd nc with
                                          | CRG crg => _CRG.clock_domains crg
                                          | _ => []
                                          end) (submodules s) in
          match exec (Platform.do_finalize fragment) (platform s) with
          | inl e => inl e
          | inr p => inr (mkSoCGraph (set_platform p s) (address_map s)
                                     (period_constraints p) run)
          end
      | violations => inl (CompositionError violations)
      end
  end.

(** ** The module body and [main] *)

(** The parsed command line: [--build], [--sys-clk-freq] (already a number)
    and the keyword arguments [soc_sdram_argdict] extracts for the SoC. *)
Record Args : Type := mkArgs {
  args_build : bool;
  args_sys_clk_freq : Z;
  args_soc_sdram : gmap string Z
}.

(** The arguments of an empty command line. *)
Definition default_args : Args := mkArgs false 66666666 ∅.

(** [soc = BaseSoC()] at the top level of the module. *)
Definition soc `{Cores} : Error + SoCCore :=
  BaseSoC.__init__ BaseSoC.default_sys_clk_freq ∅.

Definition main `{Cores} (args : Args) : Error + SoCGraph :=
  match BaseSoC.__init__ (args_sys_clk_freq args) (args_soc_sdram args) with
  | inl e => inl e
  | inr soc => Builder_build soc (args_build args)
  end.

(** Executing the file from top to bottom: the module-level [soc] is
    constructed first; [main] runs afterwards, and only when the file is the
    program ([__name__ == "__main__"], here [Some args]) rather than
    imported ([None]). *)
Definition load `{Cores} (as_main : option Args)
    : Error + (SoCCore * option SoCGraph) :=
  match soc with
  | inl e => inl e
  | inr soc0 =>
      match as_main with
      | None => inr (soc0, None)
      | Some args =>
          match main args with
          | inl e => inl e
          | inr g => inr (soc0, Some g)
          end
      end
  end.

(** ** A reference instance of the cores *)

(** Modelled from the spec: the multiplier's capability as a table of
    ratios [(multiplier, divider)] (section 4.2): a target is reached when
    some ratio of the table gives it exactly (tolerance 0). *)
Definition table_ratio_supported (table : list (Z * Z)) (input_freq freq : Z) : bool :=
  existsb (λ md, input_freq * fst md =? freq * snd md) table.

(** Cores that accept the defaults of the script: a table with the ratio
    33333333/25000000, which takes the 50 MHz input to 66,666,666 Hz exactly,
    a catalog with the module in both clock-ratio modes, and a memory map
    with the memory below the register area. *)
Definition demo_cores : Cores :=
  mkCores (table_ratio_supported [(33333333, 25000000); (1, 1); (2, 1)])
          (λ id rate, if bool_decide (rate = "1:1") || bool_decide (rate = "1:2")
                      then Some (mkGeometry 0x2000000 128) else None)
          (<["main_ram" := 0x40000000]> (<["csr" := 0x82000000]> ∅))
          0x82000000 0x800.

(** ** What the script builds

    The objects the constructors are shown to produce, written out. *)

(** The catalog entry of a name and number. *)
Definition pad (name : string) (number : nat) : Resource :=
  default (mkResource name number []) (lookup_resource _io name (Some number)).

(** The platform of the script with exactly the resources [keys] bound. *)
Definition platform_with (keys : list (string * nat)) : XilinxPlatform :=
  set_bound (λ _, list_to_set keys) Platform.__init__.

Definition crg_keys : list (string * nat) :=
  [("cpu_reset", 0%nat); ("cclk", 0%nat); ("clk50", 0%nat); ("sdram_clock", 0%nat)].

(** What the constructor of [_CRG] builds for a system clock frequency the
    multiplier supports. *)
Definition crg_of (f : Z) : _CRG.t :=
  let cd_sys := mkClockDomain "sys" false in
  let cd_sys_ps := mkClockDomain "sys_ps" true in
  _CRG.mk [cd_sys; cd_sys_ps]
          (mkS6PLL (-2) clocked (Some (pad "clk50" 0, 50000000))
                   [mkClkOut cd_sys f 0; mkClkOut cd_sys_ps f 90])
          [mkAssign "pll.reset" 1
                    (Or (Not (Sig (pad "cpu_reset" 0))) (Not (Sig (pad "cclk" 0))))]
          [mkDDROutput 1 0 (pad "sdram_clock" 0) "sys_ps"].

Definition user_led_keys : list (string * nat) :=
  (λ n, ("user_led", n)) <$> seq 0 8.

Definition user_leds : list Resource := pad "user_led" <$> seq 0 8.

(** The object under construction: platform, clock frequency, the capability
    answer [n], submodules, regions and register blocks. *)
Definition soc_state (f n : Z) (p : XilinxPlatform) (subs : list (string * Core))
    (regs : list MemoryRegion) (csrs : list string) : SoCCore :=
  mkSoCCore p f "Mojo V3 SoC" true n subs regs csrs.

Definition sdram_region (f origin : Z) (g : Geometry) : MemoryRegion :=
  mkMemoryRegion "sdram" origin 0x2000000 None (GENSDRPHY (pad "sdram" 0))
                 (mkSDRAMModule "MT48LC32M8" f "1:1" g)
                 (mkCacheParams 1024 128 true).

(** What the constructor builds when it composes the memory subsystem, and
    when pre-integrated memory is present. *)
Definition soc_with_sdram (f origin : Z) (g : Geometry) : SoCCore :=
  soc_state f 0 (platform_with (crg_keys ++ ("sdram", 0%nat) :: user_led_keys))
            [("crg", CRG (crg_of f)); ("sdrphy", GENSDRPHY (pad "sdram" 0));
             ("dna", DNA); ("leds", LedChaser user_leds f)]
            [sdram_region f origin g] ["dna"; "leds"].

Definition soc_without_sdram (f n : Z) : SoCCore :=
  soc_state f n (platform_with (crg_keys ++ user_led_keys))
            [("crg", CRG (crg_of f)); ("dna", DNA); ("leds", LedChaser user_leds f)]
            [] ["dna"; "leds"].

(** The clock generator after finalization. *)
Definition finalized_crg (f : Z) : _CRG.t :=
  let crg := crg_of f in
  _CRG.mk (_CRG.clock_domains crg)
          (mkS6PLL (-2) finalized (Some (pad "clk50" 0, 50000000))
                   (clkouts (_CRG.pll crg)))
          (_CRG.comb crg) (_CRG.specials crg).

(** The platform after finalization: the one timing constraint is on it. *)
Definition finalized_platform (keys : list (string * nat)) : XilinxPlatform :=
  set_period_constraints (λ _, {[("clk50", 0%nat) := 20%float]}) (platform_with keys).

(** The graphs [main] hands over, with and without the memory subsystem. *)
Definition graph_with_sdram `{Cores} (f origin : Z) (g : Geometry) (run : bool)
    : SoCGraph :=
  mkSoCGraph
    (soc_state f 0 (finalized_platform (crg_keys ++ ("sdram", 0%nat) :: user_led_keys))
               [("crg", CRG (finalized_crg f)); ("sdrphy", GENSDRPHY (pad "sdram" 0));
                ("dna", DNA); ("leds", LedChaser user_leds f)]
               [sdram_region f origin g] ["dna"; "leds"])
    (address_map (soc_with_sdram f origin g))
    {[("clk50", 0%nat) := 20%float]} run.

Definition graph_without_sdram `{Cores} (f n : Z) (run : bool) : SoCGraph :=
  mkSoCGraph
    (soc_state f n (finalized_platform (crg_keys ++ user_led_keys))
               [("crg", CRG (finalized_crg f)); ("dna", DNA);
                ("leds", LedChaser user_leds f)]
               [] ["dna"; "leds"])
    (address_map (soc_without_sdram f n))
    {[("clk50", 0%nat) := 20%float]} run.

(** ** The pins and pads in use *)

(** Every pin identifier a constraint carries, those of subsignals included. *)
Fixpoint constraint_pins (c : Constraint) : list string :=
  match c with
  | Pins ids => String.words ids
  | Subsignal _ cs => flat_map constraint_pins cs
  | _ => []
  end.

Definition resource_pins (r : Resource) : list string :=
  flat_map constraint_pins (res_constraints r).

(** The pads an expression reads. *)
Fixpoint expr_pads (e : Expr) : list Resource :=
  match e with
  | Sig pad => [pad]
  | Not a => expr_pads a
  | Or a b => expr_pads a ++ expr_pads b
  end.

(** The pads a core is built on: for the clock generator the pads of its
    assignments, the input clock of the multiplier and the pads of its
    output cells. *)
Definition core_pads (c : Core) : list Resource :=
  match c with
  | CRG crg =>
      flat_map (expr_pads ∘ value) (_CRG.comb crg)
      ++ match clkin (_CRG.pll crg) with Some (clk, _) => [clk] | None => [] end
      ++ (ddr_o <$> _CRG.specials crg)
  | GENSDRPHY pads => [pads]
  | DNA => []
  | LedChaser pads _ => pads
  end.

(** Cores whose multiplier only passes the input clock through, with no
    memory map: the defaults of the script are not buildable on them. *)
Definition unity_cores : Cores :=
  mkCores (table_ratio_supported [(1, 1)])
          (λ id rate, if bool_decide (rate = "1:1")
                      then Some (mkGeometry 0x2000000 128) else None)
          ∅ 0x82000000 0x800.

(** * Properties *)

(** ** Running statement sequences *)

Lemma bind_ok {S A B} (m : St S A) (k : A → St S B) (s s' : S) (x : A) :
  m s = inr (x, s') → (m ≫= k) s = k x s'.
Proof. unfold mbind, St_bind. by intros ->. Qed.

Lemma bind_raise {S A B} (m : St S A) (k : A → St S B) (s : S) (e : Error) :
  m s = inl e → (m ≫= k) s = inl e.
Proof. unfold mbind, St_bind. by intros ->. Qed.

Lemma bind_inr {S A B} (m : St S A) (k : A → St S B) (s : S) (r : B * S) :
  (m ≫= k) s = inr r → ∃ x s', m s = inr (x, s') ∧ k x s' = inr r.
Proof.
  unfold mbind, St_bind.
  destruct (m s) as [e | [x s']]; [discriminate | eauto].
Qed.

Lemma on_platform_ok {A} (m : St XilinxPlatform A) (s : SoCCore) (x : A)
    (p : XilinxPlatform) :
  m (platform s) = inr (x, p) → on_platform m s = inr (x, set_platform p s).
Proof. unfold on_platform. by intros ->. Qed.

Lemma on_platform_raise {A} (m : St XilinxPlatform A) (s : SoCCore) (e : Error) :
  m (platform s) = inl e → on_platform m s = inl e.
Proof. unfold on_platform. by intros ->. Qed.

(** ** Requests *)

Lemma request_inr (name : string) (number : option nat) (loose : bool)
    (p p' : XilinxPlatform) (r : Resource) :
  request name number loose p = inr (r, p') →
  lookup_resource (io p) name number = Some r
  ∧ p' = set_bound (λ b, {[res_key r]} ∪ b) p.
Proof.
  unfold request. destruct (lookup_resource _ _ _) as [r0|]; [| discriminate].
  destruct (_ && _); [discriminate |]. by intros [= -> <-].
Qed.

(** C8: once a request for a resource has succeeded, a second request for the
    same name and number without [loose] fails with
    [ResourceAlreadyBoundError]; with [loose] it succeeds and returns the
    binding of the first request; and the loose lookup the platform's
    finalization makes observes that same binding. *)
Theorem request_again (p p1 : XilinxPlatform) (name : string)
    (number : option nat) (loose : bool) (r : Resource) :
  request name number loose p = inr (r, p1) →
  request name number false p1
    = inl (ResourceAlreadyBoundError (res_name r) (res_number r))
  ∧ (∃ p2, request name number true p1 = inr (r, p2))
  ∧ lookup_request name number true p1 = inr (Some r, p1).
Proof.
  intros [Hfind ->]%request_inr.
  assert (Hin : res_key r ∈ bound (set_bound (λ b, {[res_key r]} ∪ b) p))
    by (cbn; set_solver).
  unfold request, lookup_request. cbn [io set_bound]. rewrite Hfind.
  rewrite (bool_decide_eq_true_2 _ Hin). cbn [andb negb]. eauto.
Qed.

Lemma request_again_witness :
  let clk50 := mkResource "clk50" 0 [Pins "P56"; IOStandard "LVTTL"] in
  let p1 := set_bound (λ b, {[("clk50", 0%nat)]} ∪ b) Platform.__init__ in
  request "clk50" None false p1 = inl (ResourceAlreadyBoundError "clk50" 0)
  ∧ (∃ p2, request "clk50" None true p1 = inr (clk50, p2))
  ∧ lookup_request "clk50" None true p1 = inr (Some clk50, p1).
Proof.
  intros clk50 p1.
  apply (request_again Platform.__init__ p1 "clk50" None false clk50).
  reflexivity.
Defined.

(** ** The clock and reset generator on a fresh platform *)

(** One statement of a sequence whose outcome is decided by computation. *)
Ltac by_computation :=
  lazymatch goal with |- _ = ?r => vm_cast_no_check (@eq_refl _ r) end.

Lemma lift_ok {S A} (r : Error + A) (x : A) (s : S) :
  r = inr x → lift r s = inr (x, s).
Proof. by intros ->. Qed.

Lemma exec_ok {S A} (m : St S A) (s s' : S) (x : A) :
  m s = inr (x, s') → exec m s = inr s'.
Proof. unfold exec. by intros ->. Qed.

Lemma exec_raise {S A} (m : St S A) (s : S) (e : Error) :
  m s = inl e → exec m s = inl e.
Proof. unfold exec. by intros ->. Qed.

(** [step_to x s'] runs the first statement of a sequence, whose value [x]
    and resulting object [s'] are checked by computation. *)
Ltac step_to x s' :=
  etrans; [ eapply (bind_ok _ _ _ s' x); by_computation | cbv beta ].

Ltac step_lift x :=
  etrans; [ eapply (bind_ok _ _ _ _ x); apply lift_ok | cbv beta ].

Lemma create_clkout_clocked `{Cores} sg clk fin outs cd f ph :
  create_clkout (mkS6PLL sg clocked (Some (clk, fin)) outs) cd f ph =
  if pll_ratio_supported fin f
  then inr (mkS6PLL sg clocked (Some (clk, fin)) (outs ++ [mkClkOut cd f ph]))
  else inl (UnsupportedRatioError fin f).
Proof. reflexivity. Qed.

Lemma CRG_init_fresh `{Cores} (f : Z) :
  _CRG.__init__ f Platform.__init__ =
  if pll_ratio_supported 50000000 f
  then inr (crg_of f, platform_with crg_keys)
  else inl (UnsupportedRatioError 50000000 f).
Proof.
  unfold _CRG.__init__.
  step_to (pad "cpu_reset" 0) (platform_with [("cpu_reset", 0%nat)]).
  step_to (pad "cclk" 0) (platform_with [("cpu_reset", 0%nat); ("cclk", 0%nat)]).
  step_to (pad "clk50" 0)
          (platform_with [("cpu_reset", 0%nat); ("cclk", 0%nat); ("clk50", 0%nat)]).
  step_lift (mkS6PLL (-2) clocked (Some (pad "clk50" 0, 50000000)) []); [reflexivity |].
  rewrite create_clkout_clocked.
  destruct (pll_ratio_supported 50000000 f) eqn:Hr; [| reflexivity].
  etrans; [ eapply bind_ok; apply lift_ok; reflexivity | cbv beta ].
  rewrite create_clkout_clocked, Hr.
  etrans; [ eapply bind_ok; apply lift_ok; reflexivity | cbv beta ].
  step_to (pad "sdram_clock" 0) (platform_with crg_keys).
  by_computation.
Qed.

(** ** The constructor of the SoC *)

Lemma on_platform_CRG `{Cores} (f n : Z) :
  pll_ratio_supported 50000000 f = true →
  on_platform (_CRG.__init__ f) (soc_state f n Platform.__init__ [] [] [])
  = inr (crg_of f, soc_state f n (platform_with crg_keys) [] [] []).
Proof.
  intros Hr. unfold on_platform. change (platform _) with Platform.__init__.
  by rewrite CRG_init_fresh, Hr.
Qed.

Lemma add_sdram_eq (name : string) (cd : option string) (phy : Core)
    (module : SDRAMModule) (origin size l2 minw : Z) (rev : bool) (s : SoCCore) :
  add_sdram name cd phy module origin size l2 minw rev s =
  if negb (size <=? addressable_bytes (module_geometry module)) then
    inl (UnsupportedGeometryError (module_id module) (module_rate module))
  else if negb (origin `mod` size =? 0) then inl (MisalignedRegionError origin size)
  else if negb (is_power_of_two l2)
          || (native_word_bits (module_geometry module) <? minw) then
    inl (CacheGeometryError l2 minw)
  else inr (tt, mkSoCCore (platform s) (sys_clk_freq s) (ident s) (ident_version s)
                          (integrated_main_ram_size s) (submodules s)
                          (regions s ++
                             [mkMemoryRegion name origin size cd phy module
                                             (mkCacheParams l2 minw rev)])
                          (csr_names s)).
Proof.
  unfold add_sdram.
  repeat match goal with |- context [if ?b then _ else _] => destruct b end;
    reflexivity.
Qed.

(** The statements of the constructor up to the memory subsystem. *)
Ltac run_crg Hr :=
  (etrans; [ eapply bind_ok; exact (on_platform_CRG _ _ Hr) | cbv beta ]);
  lazymatch goal with
  | |- _ (soc_state ?f ?n ?p _ _ _) = _ =>
      step_to tt (soc_state f n p [("crg", CRG (crg_of f))] [] [])
  end.

(** The request for the memory pads and the PHY on them. *)
Ltac run_sdrphy :=
  lazymatch goal with
  | |- _ (soc_state ?f ?n _ ?subs _ _) = _ =>
      step_to (pad "sdram" 0)
              (soc_state f n (platform_with (crg_keys ++ [("sdram", 0%nat)])) subs [] []);
      step_to tt (soc_state f n (platform_with (crg_keys ++ [("sdram", 0%nat)]))
                            (subs ++ [("sdrphy", GENSDRPHY (pad "sdram" 0))]) [] [])
  end.

Ltac run_module Hcat :=
  etrans; [ eapply bind_ok; apply lift_ok; unfold MT48LC32M8; rewrite Hcat;
            reflexivity | cbv beta ].

Lemma BaseSoC_init_eq `{Cores} (f : Z) (kwargs : gmap string Z) :
  BaseSoC.__init__ f kwargs =
  let n := default 0 (kwargs !! "integrated_main_ram_size") in
  if pll_ratio_supported 50000000 f then
    if bool_decide (n = 0) then
      match sdram_catalog "MT48LC32M8" "1:1" with
      | None => inl (UnsupportedGeometryError "MT48LC32M8" "1:1")
      | Some g =>
          match mem_map !! "main_ram" with
          | None => inl (KeyError "main_ram")
          | Some origin =>
              if negb (0x2000000 <=? addressable_bytes g) then
                inl (UnsupportedGeometryError "MT48LC32M8" "1:1")
              else if negb (origin `mod` 0x2000000 =? 0) then
                inl (MisalignedRegionError origin 0x2000000)
              else if native_word_bits g <? 128 then
                inl (CacheGeometryError 1024 128)
              else inr (soc_with_sdram f origin g)
          end
      end
    else inr (soc_without_sdram f n)
  else inl (UnsupportedRatioError 50000000 f).
Proof.
  unfold BaseSoC.__init__, SoCCore__init__.
  generalize (default 0 (kwargs !! "integrated_main_ram_size")). intros n. cbv zeta.
  change (mkSoCCore Platform.__init__ f "Mojo V3 SoC" true n [] [] [])
    with (soc_state f n Platform.__init__ [] [] []).
  destruct (pll_ratio_supported 50000000 f) eqn:Hr.
  2:{ apply exec_raise. eapply bind_raise. apply on_platform_raise.
      change (platform _) with Platform.__init__. by rewrite CRG_init_fresh, Hr. }
  destruct (bool_decide (n = 0)) eqn:Hn.
  - apply bool_decide_eq_true_1 in Hn. subst n.
    destruct (sdram_catalog "MT48LC32M8" "1:1") as [g|] eqn:Hcat.
    2:{ apply exec_raise. run_crg Hr.
        etrans; [ eapply bind_ok; reflexivity | cbv beta ].
        eapply bind_raise. run_sdrphy.
        eapply bind_raise. unfold MT48LC32M8. by rewrite Hcat. }
    destruct (mem_map !! "main_ram") as [origin|] eqn:Hmm.
    2:{ apply exec_raise. run_crg Hr.
        etrans; [ eapply bind_ok; reflexivity | cbv beta ].
        eapply bind_raise. run_sdrphy. run_module Hcat.
        eapply bind_raise. unfold mem_map_get. by rewrite Hmm. }
    assert (Hsd : ∀ s, add_sdram "sdram" None (GENSDRPHY (pad "sdram" 0))
                         (mkSDRAMModule "MT48LC32M8" f "1:1" g) origin 0x2000000
                         1024 128 true s
                       = if negb (0x2000000 <=? addressable_bytes g) then
                           inl (UnsupportedGeometryError "MT48LC32M8" "1:1")
                         else if negb (origin `mod` 0x2000000 =? 0) then
                           inl (MisalignedRegionError origin 0x2000000)
                         else if native_word_bits g <? 128 then
                           inl (CacheGeometryError 1024 128)
                         else inr (tt, mkSoCCore (platform s) (sys_clk_freq s) (ident s)
                                     (ident_version s) (integrated_main_ram_size s)
                                     (submodules s)
                                     (regions s ++ [sdram_region f origin g])
                                     (csr_names s)))
      by (intros s; apply add_sdram_eq).
    destruct (negb (0x2000000 <=? addressable_bytes g)) eqn:T1;
      [| destruct (negb (origin `mod` 0x2000000 =? 0)) eqn:T2;
         [| destruct (native_word_bits g <? 128) eqn:T3 ] ].
    1-3: apply exec_raise; run_crg Hr;
         (etrans; [ eapply bind_ok; reflexivity | cbv beta ]);
         eapply bind_raise; run_sdrphy; run_module Hcat;
         (etrans; [ eapply bind_ok; apply lift_ok; unfold mem_map_get;
                    rewrite Hmm; reflexivity | cbv beta ]);
         rewrite Hsd, ?T1, ?T2, ?T3; reflexivity.
    eapply (exec_ok _ _ _ tt). run_crg Hr.
    etrans; [ eapply bind_ok; reflexivity | cbv beta ].
    etrans; [ eapply (bind_ok _ _ _
                (soc_state f 0 (platform_with (crg_keys ++ [("sdram", 0%nat)]))
                   [("crg", CRG (crg_of f)); ("sdrphy", GENSDRPHY (pad "sdram" 0))]
                   [sdram_region f origin g] []) tt) | cbv beta ].
    { run_sdrphy. run_module Hcat.
      etrans; [ eapply bind_ok; apply lift_ok; unfold mem_map_get;
                rewrite Hmm; reflexivity | cbv beta ].
      rewrite Hsd, ?T1, ?T2, ?T3. reflexivity. }
    step_to tt (soc_state f 0 (platform_with (crg_keys ++ [("sdram", 0%nat)]))
                   [("crg", CRG (crg_of f)); ("sdrphy", GENSDRPHY (pad "sdram" 0));
                    ("dna", DNA)]
                   [sdram_region f origin g] []).
    step_to tt (soc_state f 0 (platform_with (crg_keys ++ [("sdram", 0%nat)]))
                   [("crg", CRG (crg_of f)); ("sdrphy", GENSDRPHY (pad "sdram" 0));
                    ("dna", DNA)]
                   [sdram_region f origin g] ["dna"]).
    step_to user_leds
            (soc_state f 0 (platform_with (crg_keys ++ ("sdram", 0%nat) :: user_led_keys))
                   [("crg", CRG (crg_of f)); ("sdrphy", GENSDRPHY (pad "sdram" 0));
                    ("dna", DNA)]
                   [sdram_region f origin g] ["dna"]).
    step_to tt (soc_state f 0 (platform_with (crg_keys ++ ("sdram", 0%nat) :: user_led_keys))
                   [("crg", CRG (crg_of f)); ("sdrphy", GENSDRPHY (pad "sdram" 0));
                    ("dna", DNA); ("leds", LedChaser user_leds f)]
                   [sdram_region f origin g] ["dna"]).
    by_computation.
  - eapply (exec_ok _ _ _ tt). run_crg Hr.
    etrans; [ eapply bind_ok; reflexivity | cbv beta ].
    cbn [integrated_main_ram_size soc_state]. rewrite Hn.
    etrans; [ eapply bind_ok; reflexivity | cbv beta ].
    step_to tt (soc_state f n (platform_with crg_keys)
                          [("crg", CRG (crg_of f)); ("dna", DNA)] [] []).
    step_to tt (soc_state f n (platform_with crg_keys)
                          [("crg", CRG (crg_of f)); ("dna", DNA)] [] ["dna"]).
    step_to user_leds
            (soc_state f n (platform_with (crg_keys ++ user_led_keys))
                       [("crg", CRG (crg_of f)); ("dna", DNA)] [] ["dna"]).
    step_to tt (soc_state f n (platform_with (crg_keys ++ user_led_keys))
                          [("crg", CRG (crg_of f)); ("dna", DNA);
                           ("leds", LedChaser user_leds f)] [] ["dna"]).
    by_computation.
Qed.

(** ** Finalization of the platform *)

Lemma default_clk_period_20 : Platform.default_clk_period = 20%float.
Proof. reflexivity. Qed.

Lemma lookup_request_clk50 (b : gset (string * nat))
    (m : gmap (string * nat) float) :
  ("clk50", 0%nat) ∈ b →
  let p := set_period_constraints (λ _, m) (set_bound (λ _, b) Platform.__init__) in
  lookup_request "clk50" None true p = inr (Some (pad "clk50" 0), p).
Proof.
  intros Hin p. unfold lookup_request.
  change (lookup_resource (io p) "clk50" None) with (Some (pad "clk50" 0)).
  cbv beta iota. lazymatch goal with
  | |- context [bool_decide ?P] => by rewrite (bool_decide_eq_true_2 P) by exact Hin
  end.
Qed.

Lemma do_finalize_eq (fragment : Fragment) (b : gset (string * nat)) :
  ("clk50", 0%nat) ∈ b →
  let p := set_bound (λ _, b) Platform.__init__ in
  Platform.do_finalize fragment p
  = inr (tt, set_period_constraints (λ _, {[("clk50", 0%nat) := 20%float]}) p).
Proof.
  intros Hin p.
  unfold Platform.do_finalize, XilinxPlatform_do_finalize.
  pose proof (lookup_request_clk50 b ∅ Hin) as H0. cbv zeta in H0.
  etrans; [ eapply bind_ok; etrans; [ eapply bind_ok; reflexivity | cbv beta ];
            etrans; [ eapply bind_ok; exact H0 | cbv beta ]; reflexivity | cbv beta ].
  pose proof (lookup_request_clk50 b {[("clk50", 0%nat) := 20%float]} Hin) as H1.
  cbv zeta in H1.
  etrans; [ eapply bind_ok; etrans; [ | exact H1 ]; f_equal | cbv beta ].
  reflexivity.
Qed.

(** C9: finalization of the platform, for any design (whatever clock domains
    it has) and any set of bound resources that contains the input clock,
    succeeds and leaves exactly one timing constraint: the base class and the
    script both emit one for [clk50], and the table keeps one entry, of
    1e9/50e6 = 20 ns; nothing else of the platform changes. *)
Theorem do_finalize_one_constraint (fragment : Fragment) (b : gset (string * nat)) :
  ("clk50", 0%nat) ∈ b →
  let p := set_bound (λ _, b) Platform.__init__ in
  Platform.do_finalize fragment p
    = inr (tt, set_period_constraints (λ _, {[("clk50", 0%nat) := 20%float]}) p)
  ∧ map_to_list ({[("clk50", 0%nat) := 20%float]} : gmap (string * nat) float)
    = [(("clk50", 0%nat), (1e9 / 50e6)%float)].
Proof.
  intros Hin p. split; [by apply do_finalize_eq | by rewrite map_to_list_singleton].
Qed.

(** ** The address map *)

Lemma overlaps_false (a b : AddressEntry) :
  overlaps a b = false ↔ ∀ x, ¬ (in_range a x ∧ in_range b x).
Proof.
  unfold overlaps, in_range. rewrite Z.ltb_ge. split.
  - intros Hle x. lia.
  - intros Hno.
    destruct (Z_lt_le_dec (Z.max (entry_base a) (entry_base b))
                (Z.min (entry_base a + entry_size a) (entry_base b + entry_size b)))
      as [Hlt|]; [| done].
    destruct (Hno (Z.max (entry_base a) (entry_base b))). lia.
Qed.

Lemma overlaps_sym (a b : AddressEntry) : overlaps a b = overlaps b a.
Proof. unfold overlaps. by rewrite Z.max_comm, Z.min_comm. Qed.

Lemma overlap_violations_nil (l : list AddressEntry) :
  overlap_violations l = [] →
  ∀ i j a b, (i < j)%nat → l !! i = Some a → l !! j = Some b → overlaps a b = false.
Proof.
  induction l as [|c l IH]; intros Hnil i j a b Hij Ha Hb; [done |].
  cbn [overlap_violations] in Hnil. apply app_eq_nil in Hnil as [Hc Hl].
  destruct j as [|j]; [lia |]. cbn in Hb.
  destruct i as [|i]; cbn in Ha.
  - injection Ha as ->. apply list_elem_of_lookup_2 in Hb.
    clear IH Hl. induction l as [|d l IHl]; [by apply elem_of_nil in Hb |].
    cbn [flat_map] in Hc. apply app_eq_nil in Hc as [Hd Hc].
    apply elem_of_cons in Hb as [-> | Hb]; [| by apply IHl].
    by destruct (overlaps a d).
  - apply (IH Hl i j); [lia | done | done].
Qed.

Lemma overlap_violations_disjoint (l : list AddressEntry) :
  overlap_violations l = [] →
  ∀ i j a b, i ≠ j → l !! i = Some a → l !! j = Some b →
             ∀ x, ¬ (in_range a x ∧ in_range b x).
Proof.
  intros Hnil i j a b Hij Ha Hb. apply overlaps_false.
  destruct (Nat.lt_total i j) as [Hlt | [-> | Hgt]]; [| done |].
  - by apply (overlap_violations_nil l Hnil i j).
  - rewrite overlaps_sym. by apply (overlap_violations_nil l Hnil j i).
Qed.

(** ** The build *)

Lemma Builder_build_inr `{Cores} (s : SoCCore) (run : bool) (gr : SoCGraph) :
  Builder_build s run = inr gr →
  overlap_violations (address_map s) = []
  ∧ graph_address_map gr = address_map s
  ∧ graph_run gr = run
  ∧ regions (graph_soc gr) = regions s
  ∧ csr_names (graph_soc gr) = csr_names s.
Proof.
  unfold Builder_build.
  destruct (finalize_submodules (submodules s)) as [e | subs]; [discriminate |].
  cbv zeta.
  change (address_map (set_submodules subs s)) with (address_map s).
  destruct (overlap_violations (address_map s)) as [|v vs]; [| discriminate].
  cbn [app]. destruct (clock_violations _); [| discriminate].
  destruct (exec _ _) as [e | p]; [discriminate |].
  by intros [= <-].
Qed.

(** C2: the address map of every graph that [main] produces, whatever the
    arguments (and so with or without the memory region), has no two entries
    whose half-open ranges share an address. *)
Theorem address_map_disjoint `{Cores} (args : Args) (gr : SoCGraph) :
  main args = inr gr →
  ∀ i j a b, i ≠ j →
    graph_address_map gr !! i = Some a → graph_address_map gr !! j = Some b →
    ∀ x, ¬ (in_range a x ∧ in_range b x).
Proof.
  unfold main. destruct (BaseSoC.__init__ _ _) as [e | s]; [discriminate |].
  intros (Hnil & -> & _)%Builder_build_inr.
  by apply overlap_violations_disjoint.
Qed.

Lemma Builder_build_ok `{Cores} (s : SoCCore) (run : bool)
    (subs : list (string * Core)) (b : gset (string * nat)) :
  finalize_submodules (submodules s) = inr subs →
  overlap_violations (address_map s) = [] →
  clock_violations (set_submodules subs s) = [] →
  platform s = set_bound (λ _, b) Platform.__init__ →
  ("clk50", 0%nat) ∈ b →
  Builder_build s run
  = inr (mkSoCGraph
           (set_platform
              (set_period_constraints (λ _, {[("clk50", 0%nat) := 20%float]}) (platform s))
              (set_submodules subs s))
           (address_map s) {[("clk50", 0%nat) := 20%float]} run).
Proof.
  intros Hfin Hov Hclk Hp Hin. unfold Builder_build. rewrite Hfin. cbv zeta.
  change (address_map (set_submodules subs s)) with (address_map s).
  rewrite Hov, Hclk. cbn [app].
  change (platform (set_submodules subs s)) with (platform s).
  unfold exec. rewrite Hp.
  by rewrite (do_finalize_eq _ b Hin).
Qed.

Lemma address_map_with_sdram `{Cores} (f origin : Z) (g : Geometry) :
  address_map (soc_with_sdram f origin g)
  = [mkAddressEntry "sdram" origin 0x2000000;
     mkAddressEntry "dna" csr_base csr_paging;
     mkAddressEntry "leds" (csr_base + csr_paging) csr_paging].
Proof.
  unfold address_map. cbn. repeat f_equal; lia.
Qed.

Lemma address_map_without_sdram `{Cores} (f n : Z) :
  address_map (soc_without_sdram f n)
  = [mkAddressEntry "dna" csr_base csr_paging;
     mkAddressEntry "leds" (csr_base + csr_paging) csr_paging].
Proof.
  unfold address_map. cbn. repeat f_equal; lia.
Qed.

Lemma main_with_sdram `{Cores} (args : Args) (origin : Z) (g : Geometry) :
  BaseSoC.__init__ (args_sys_clk_freq args) (args_soc_sdram args)
    = inr (soc_with_sdram (args_sys_clk_freq args) origin g) →
  (origin + 0x2000000 ≤ csr_base ∨ csr_base + 2 * csr_paging ≤ origin
   ∨ csr_paging ≤ 0) →
  main args = inr (graph_with_sdram (args_sys_clk_freq args) origin g (args_build args)).
Proof.
  intros Hinit Hfree. unfold main. rewrite Hinit.
  etrans; [ apply (Builder_build_ok _ _
                     [("crg", CRG (finalized_crg (args_sys_clk_freq args)));
                      ("sdrphy", GENSDRPHY (pad "sdram" 0)); ("dna", DNA);
                      ("leds", LedChaser user_leds (args_sys_clk_freq args))]
                     (list_to_set (crg_keys ++ ("sdram", 0%nat) :: user_led_keys)))
          | reflexivity ].
  - reflexivity.
  - rewrite address_map_with_sdram. cbn [overlap_violations flat_map app].
    unfold overlaps. cbn [entry_base entry_size].
    repeat match goal with
           | |- context [?a <? ?b] =>
               rewrite (proj2 (Z.ltb_ge a b)) by lia
           end.
    reflexivity.
  - by_computation.
  - reflexivity.
  - apply elem_of_list_to_set. repeat constructor.
Qed.

Lemma main_without_sdram `{Cores} (args : Args) (n : Z) :
  BaseSoC.__init__ (args_sys_clk_freq args) (args_soc_sdram args)
    = inr (soc_without_sdram (args_sys_clk_freq args) n) →
  main args = inr (graph_without_sdram (args_sys_clk_freq args) n (args_build args)).
Proof.
  intros Hinit. unfold main. rewrite Hinit.
  etrans; [ apply (Builder_build_ok _ _
                     [("crg", CRG (finalized_crg (args_sys_clk_freq args)));
                      ("dna", DNA);
                      ("leds", LedChaser user_leds (args_sys_clk_freq args))]
                     (list_to_set (crg_keys ++ user_led_keys)))
          | reflexivity ].
  - reflexivity.
  - rewrite address_map_without_sdram. cbn [overlap_violations flat_map app].
    unfold overlaps. cbn [entry_base entry_size].
    rewrite (proj2 (Z.ltb_ge _ _)) by lia. reflexivity.
  - by_computation.
  - reflexivity.
  - apply elem_of_list_to_set. repeat constructor.
Qed.

(** The constructor succeeds with the memory subsystem exactly when every
    core accepts what the script asks of it. *)
Lemma BaseSoC_init_with_sdram `{Cores} (f origin : Z) (g : Geometry)
    (kwargs : gmap string Z) :
  default 0 (kwargs !! "integrated_main_ram_size") = 0 →
  pll_ratio_supported 50000000 f = true →
  sdram_catalog "MT48LC32M8" "1:1" = Some g →
  mem_map !! "main_ram" = Some origin →
  0x2000000 ≤ addressable_bytes g →
  origin `mod` 0x2000000 = 0 →
  128 ≤ native_word_bits g →
  BaseSoC.__init__ f kwargs = inr (soc_with_sdram f origin g).
Proof.
  intros Hn Hr Hcat Hmm Hsize Halign Hword.
  rewrite BaseSoC_init_eq. cbv zeta. rewrite Hn, Hr, Hcat, Hmm.
  rewrite bool_decide_eq_true_2 by done.
  rewrite (proj2 (Z.leb_le _ _) Hsize), (proj2 (Z.eqb_eq _ _) Halign),
    (proj2 (Z.ltb_ge _ _) Hword).
  reflexivity.
Qed.

(** Every outcome of the constructor, read backwards. *)
Lemma BaseSoC_init_inr `{Cores} (f : Z) (kwargs : gmap string Z) (s : SoCCore) :
  BaseSoC.__init__ f kwargs = inr s →
  pll_ratio_supported 50000000 f = true
  ∧ ((∃ origin g, default 0 (kwargs !! "integrated_main_ram_size") = 0
                  ∧ mem_map !! "main_ram" = Some origin
                  ∧ s = soc_with_sdram f origin g)
     ∨ (default 0 (kwargs !! "integrated_main_ram_size") ≠ 0
        ∧ s = soc_without_sdram f (default 0 (kwargs !! "integrated_main_ram_size")))).
Proof.
  rewrite BaseSoC_init_eq. cbv zeta.
  destruct (pll_ratio_supported 50000000 f); [| discriminate].
  case_bool_decide as Hn.
  - destruct (sdram_catalog _ _) as [g|]; [| discriminate].
    destruct (mem_map !! "main_ram") as [origin|]; [| discriminate].
    repeat match goal with
           | |- (if ?b then _ else _) = _ → _ => destruct b; [discriminate |]
           end.
    intros [= <-]. split; [done |]. left. by exists origin, g.
  - intros [= <-]. split; [done |]. by right.
Qed.


(** ** The default build *)

(** C1: when every core accepts the defaults (the multiplier reaches
    66,666,666 Hz from 50 MHz, the catalog has the module with room for
    0x2000000 bytes and a wide enough word, the origin of [main_ram] is
    aligned, and the register area is clear of the memory), the default build
    succeeds; its graph has exactly one memory region, of size 0x2000000 at
    the [main_ram] entry of the memory map, exactly one clock output with a
    phase of 90 degrees, the identification core and the LED core on all
    eight [user_led] resources, and one register block for each of the two,
    the blocks sharing no address. *)
Theorem default_build `{Cores} (origin : Z) (g : Geometry) :
  pll_ratio_supported 50000000 66666666 = true →
  sdram_catalog "MT48LC32M8" "1:1" = Some g →
  mem_map !! "main_ram" = Some origin →
  0x2000000 ≤ addressable_bytes g →
  origin `mod` 0x2000000 = 0 →
  128 ≤ native_word_bits g →
  origin + 0x2000000 ≤ csr_base ∨ csr_base + 2 * csr_paging ≤ origin →
  ∃ gr crg,
    main default_args = inr gr
    ∧ (λ r, (region_origin r, region_size r)) <$> regions (graph_soc gr)
      = [(origin, 0x2000000)]
    ∧ snd <$> submodules (graph_soc gr)
      = [CRG crg; GENSDRPHY (pad "sdram" 0); DNA;
         LedChaser (List.filter (λ r, bool_decide (res_name r = "user_led")) _io)
                   66666666]
    ∧ length (List.filter (λ r, bool_decide (res_name r = "user_led")) _io) = 8%nat
    ∧ List.filter (λ o, out_phase o =? 90) (clkouts (_CRG.pll crg))
      = [mkClkOut (mkClockDomain "sys_ps" true) 66666666 90]
    ∧ graph_address_map gr
      = [mkAddressEntry "sdram" origin 0x2000000;
         mkAddressEntry "dna" csr_base csr_paging;
         mkAddressEntry "leds" (csr_base + csr_paging) csr_paging]
    ∧ (∀ x, ¬ (in_range (mkAddressEntry "dna" csr_base csr_paging) x
               ∧ in_range (mkAddressEntry "leds" (csr_base + csr_paging) csr_paging) x)).
Proof.
  intros Hr Hcat Hmm Hsize Halign Hword Hfree.
  exists (graph_with_sdram 66666666 origin g false), (finalized_crg 66666666).
  split; [| split; [| split; [| split; [| split; [| split]]]]].
  - apply (main_with_sdram default_args); [| tauto].
    by apply BaseSoC_init_with_sdram.
  - reflexivity.
  - by_computation.
  - by_computation.
  - reflexivity.
  - apply address_map_with_sdram.
  - unfold in_range. cbn [entry_base entry_size]. lia.
Qed.

Lemma default_build_witness :
  ∃ gr crg,
    @main demo_cores default_args = inr gr
    ∧ (λ r, (region_origin r, region_size r)) <$> regions (graph_soc gr)
      = [(0x40000000, 0x2000000)]
    ∧ snd <$> submodules (graph_soc gr)
      = [CRG crg; GENSDRPHY (pad "sdram" 0); DNA;
         LedChaser (List.filter (λ r, bool_decide (res_name r = "user_led")) _io)
                   66666666]
    ∧ length (List.filter (λ r, bool_decide (res_name r = "user_led")) _io) = 8%nat
    ∧ List.filter (λ o, out_phase o =? 90) (clkouts (_CRG.pll crg))
      = [mkClkOut (mkClockDomain "sys_ps" true) 66666666 90]
    ∧ graph_address_map gr
      = [mkAddressEntry "sdram" 0x40000000 0x2000000;
         mkAddressEntry "dna" 0x82000000 0x800;
         mkAddressEntry "leds" (0x82000000 + 0x800) 0x800]
    ∧ (∀ x, ¬ (in_range (mkAddressEntry "dna" 0x82000000 0x800) x
               ∧ in_range (mkAddressEntry "leds" (0x82000000 + 0x800) 0x800) x)).
Proof.
  apply (@default_build demo_cores 0x40000000 (mkGeometry 0x2000000 128));
    first [ reflexivity | cbn; lia ].
Defined.

(** ** The clock and reset generator *)

Lemma CRG_init_inr `{Cores} (f : Z) (crg : _CRG.t) (p : XilinxPlatform) :
  _CRG.__init__ f Platform.__init__ = inr (crg, p) →
  pll_ratio_supported 50000000 f = true
  ∧ crg = crg_of f ∧ p = platform_with crg_keys.
Proof.
  rewrite CRG_init_fresh.
  destruct (pll_ratio_supported 50000000 f); [| discriminate].
  by intros [= <- <-].
Qed.

(** C3: the reset of the multiplier is driven by the one combinatorial
    assignment of the generator, and for every level of the two pins it is
    asserted exactly when [cpu_reset] or [cclk] is low: it is the complement
    of their conjunction. *)
Theorem pll_reset_truth_table `{Cores} (f : Z) (crg : _CRG.t) (p : XilinxPlatform)
    (env : string * nat → Z) (cpu_reset cclk : bool) :
  _CRG.__init__ f Platform.__init__ = inr (crg, p) →
  env ("cpu_reset", 0%nat) = Z.b2z cpu_reset →
  env ("cclk", 0%nat) = Z.b2z cclk →
  ∃ a, _CRG.comb crg = [a]
       ∧ target a = "pll.reset"
       ∧ driven env a = Z.b2z (negb (cpu_reset && cclk))
       ∧ (driven env a = 1 ↔ cpu_reset = false ∨ cclk = false).
Proof.
  intros (_ & -> & _)%CRG_init_inr Hreset Hcclk.
  eexists. split; [reflexivity |]. split; [reflexivity |].
  assert (Hd : driven env
                 (mkAssign "pll.reset" 1
                    (Or (Not (Sig (pad "cpu_reset" 0))) (Not (Sig (pad "cclk" 0)))))
               = Z.b2z (negb (cpu_reset && cclk))).
  { unfold driven. cbn [value target_bits eval width].
    change (nbits (pad "cpu_reset" 0)) with 1%nat.
    change (nbits (pad "cclk" 0)) with 1%nat.
    change (res_key (pad "cpu_reset" 0)) with ("cpu_reset", 0%nat).
    change (res_key (pad "cclk" 0)) with ("cclk", 0%nat).
    rewrite Hreset, Hcclk. by destruct cpu_reset, cclk. }
  split; [exact Hd |]. rewrite Hd.
  destruct cpu_reset, cclk; cbn; intuition congruence.
Qed.

Lemma pll_reset_truth_table_witness :
  ∃ a, _CRG.comb (crg_of 66666666) = [a]
       ∧ target a = "pll.reset"
       ∧ driven (λ k, if bool_decide (k = ("cclk", 0%nat)) then 0 else 1) a
         = Z.b2z (negb (true && false))
       ∧ (driven (λ k, if bool_decide (k = ("cclk", 0%nat)) then 0 else 1) a = 1
          ↔ true = false ∨ false = false).
Proof.
  apply (@pll_reset_truth_table demo_cores 66666666 (crg_of 66666666)
           (platform_with crg_keys)); [by_computation | reflexivity | reflexivity].
Defined.

(** C6: the generator declares the phase-shifted clock as a clock domain of
    its own, [sys_ps], without a reset, next to the system domain [sys]; the
    multiplier has one output for each, both at the system clock frequency,
    the one of [sys_ps] with a phase of 90 degrees; and no combinatorial
    assignment derives one clock from the other. *)
Theorem phase_shifted_domain `{Cores} (f : Z) (crg : _CRG.t) (p : XilinxPlatform) :
  _CRG.__init__ f Platform.__init__ = inr (crg, p) →
  _CRG.clock_domains crg = [mkClockDomain "sys" false; mkClockDomain "sys_ps" true]
  ∧ clkouts (_CRG.pll crg)
    = [mkClkOut (mkClockDomain "sys" false) f 0;
       mkClkOut (mkClockDomain "sys_ps" true) f 90]
  ∧ target <$> _CRG.comb crg = ["pll.reset"].
Proof. by intros (_ & -> & _)%CRG_init_inr. Qed.

Lemma phase_shifted_domain_witness :
  _CRG.clock_domains (crg_of 66666666)
    = [mkClockDomain "sys" false; mkClockDomain "sys_ps" true]
  ∧ clkouts (_CRG.pll (crg_of 66666666))
    = [mkClkOut (mkClockDomain "sys" false) 66666666 0;
       mkClkOut (mkClockDomain "sys_ps" true) 66666666 90]
  ∧ target <$> _CRG.comb (crg_of 66666666) = ["pll.reset"].
Proof.
  apply (@phase_shifted_domain demo_cores 66666666 (crg_of 66666666)
           (platform_with crg_keys)).
  by_computation.
Defined.

(** C7: with a system clock frequency the multiplier has no ratio for, the
    constructor of the SoC fails with [UnsupportedRatioError], and so does
    [main]: no graph is produced. *)
Theorem unsupported_ratio `{Cores} (args : Args) :
  pll_ratio_supported 50000000 (args_sys_clk_freq args) = false →
  BaseSoC.__init__ (args_sys_clk_freq args) (args_soc_sdram args)
    = inl (UnsupportedRatioError 50000000 (args_sys_clk_freq args))
  ∧ main args = inl (UnsupportedRatioError 50000000 (args_sys_clk_freq args)).
Proof.
  intros Hr. unfold main. rewrite BaseSoC_init_eq. cbv zeta. by rewrite Hr.
Qed.

Lemma unsupported_ratio_witness :
  @BaseSoC.__init__ demo_cores 999 ∅ = inl (UnsupportedRatioError 50000000 999)
  ∧ @main demo_cores (mkArgs true 999 ∅) = inl (UnsupportedRatioError 50000000 999).
Proof.
  apply (@unsupported_ratio demo_cores (mkArgs true 999 ∅)). reflexivity.
Defined.

(** ** The memory subsystem *)

(** C4: when the constructor composes the memory subsystem (no pre-integrated
    memory), the one region it registers has the cache parameters 1024 (a
    power of two), 128 (so at least 128 bits) and reversed addressing. *)
Theorem l2_cache_defaults `{Cores} (f : Z) (kwargs : gmap string Z) (s : SoCCore) :
  BaseSoC.__init__ f kwargs = inr s →
  default 0 (kwargs !! "integrated_main_ram_size") = 0 →
  ∃ r, regions s = [r]
       ∧ region_cache r = mkCacheParams 1024 128 true
       ∧ is_power_of_two (l2_cache_size (region_cache r)) = true
       ∧ 128 ≤ l2_cache_min_data_width (region_cache r)
       ∧ l2_cache_reverse (region_cache r) = true.
Proof.
  intros (_ & [(origin & g & _ & _ & ->) | (Hn & _)])%BaseSoC_init_inr Hzero;
    [| done].
  exists (sdram_region f origin g). cbn. by repeat split.
Qed.

(** C5, as the code has it: the memory subsystem is composed without a
    clock-domain handle, from the pads of the [sdram] resource alone; the
    phase-shifted domain [sys_ps] clocks one cell, the double-data-rate
    output on the [sdram_clock] pad. *)
Theorem sdram_clocking `{Cores} (f : Z) (kwargs : gmap string Z) (s : SoCCore) :
  BaseSoC.__init__ f kwargs = inr s →
  (∀ r, r ∈ regions s →
        region_clock_domain r = None ∧ region_phy r = GENSDRPHY (pad "sdram" 0))
  ∧ ∃ crg, submodules s !! 0%nat = Some ("crg", CRG crg)
           ∧ _CRG.specials crg = [mkDDROutput 1 0 (pad "sdram_clock" 0) "sys_ps"].
Proof.
  intros (_ & [(origin & g & _ & _ & ->) | (_ & ->)])%BaseSoC_init_inr.
  - split; [| by exists (crg_of f)].
    intros r Hr. cbn in Hr. apply list_elem_of_singleton in Hr as ->. done.
  - split; [| by exists (crg_of f)].
    intros r Hr. cbn in Hr. by apply elem_of_nil in Hr.
Qed.

Lemma demo_init :
  @BaseSoC.__init__ demo_cores 66666666 ∅
  = inr (soc_with_sdram 66666666 0x40000000 (mkGeometry 0x2000000 128)).
Proof.
  apply (@BaseSoC_init_with_sdram demo_cores); first [ reflexivity | cbn; lia ].
Qed.

Lemma l2_cache_defaults_witness :
  ∃ r, regions (soc_with_sdram 66666666 0x40000000 (mkGeometry 0x2000000 128)) = [r]
       ∧ region_cache r = mkCacheParams 1024 128 true
       ∧ is_power_of_two (l2_cache_size (region_cache r)) = true
       ∧ 128 ≤ l2_cache_min_data_width (region_cache r)
       ∧ l2_cache_reverse (region_cache r) = true.
Proof.
  apply (@l2_cache_defaults demo_cores 66666666 ∅); [by_computation | reflexivity].
Defined.

Lemma sdram_clocking_witness :
  let s := soc_with_sdram 66666666 0x40000000 (mkGeometry 0x2000000 128) in
  (∀ r, r ∈ regions s →
        region_clock_domain r = None ∧ region_phy r = GENSDRPHY (pad "sdram" 0))
  ∧ ∃ crg, submodules s !! 0%nat = Some ("crg", CRG crg)
           ∧ _CRG.specials crg = [mkDDROutput 1 0 (pad "sdram_clock" 0) "sys_ps"].
Proof.
  apply (@sdram_clocking demo_cores 66666666 ∅). by_computation.
Defined.

(** C5, as the claim words it, fails: in the default build the region of the
    memory subsystem carries no clock-domain handle, so the handle is not the
    phase-shifted domain. *)
Lemma sdram_not_on_sys_ps :
  ∃ s, @BaseSoC.__init__ demo_cores 66666666 ∅ = inr s
       ∧ region_clock_domain <$> regions s = [None]
       ∧ ¬ (∀ r, r ∈ regions s → region_clock_domain r = Some "sys_ps").
Proof.
  eexists. split; [exact demo_init |]. split; [reflexivity |].
  intros Hall.
  specialize (Hall (sdram_region 66666666 0x40000000 (mkGeometry 0x2000000 128))).
  discriminate Hall. constructor.
Qed.

Lemma address_map_disjoint_witness :
  ∃ gr, @main demo_cores default_args = inr gr
        ∧ ∀ i j a b, i ≠ j →
            graph_address_map gr !! i = Some a → graph_address_map gr !! j = Some b →
            ∀ x, ¬ (in_range a x ∧ in_range b x).
Proof.
  exists (@graph_with_sdram demo_cores 66666666 0x40000000
            (mkGeometry 0x2000000 128) false).
  assert (Hmain : @main demo_cores default_args
                  = inr (@graph_with_sdram demo_cores 66666666 0x40000000
                           (mkGeometry 0x2000000 128) false)).
  { apply (@main_with_sdram demo_cores default_args); [exact demo_init | cbn; lia]. }
  split; [exact Hmain |].
  exact (@address_map_disjoint demo_cores default_args _ Hmain).
Defined.

Lemma do_finalize_one_constraint_witness :
  let p := set_bound (λ _, {[("clk50", 0%nat)]}) Platform.__init__ in
  Platform.do_finalize [mkClockDomain "sys" false; mkClockDomain "sys_ps" true] p
    = inr (tt, set_period_constraints (λ _, {[("clk50", 0%nat) := 20%float]}) p)
  ∧ map_to_list ({[("clk50", 0%nat) := 20%float]} : gmap (string * nat) float)
    = [(("clk50", 0%nat), (1e9 / 50e6)%float)].
Proof.
  apply (do_finalize_one_constraint
           [mkClockDomain "sys" false; mkClockDomain "sys_ps" true]
           {[("clk50", 0%nat)]}).
  by apply elem_of_singleton.
Defined.

(** ** Loading the module *)

Lemma soc_default `{Cores} (s : SoCCore) :
  soc = inr s → ∃ origin g, s = soc_with_sdram 66666666 origin g.
Proof.
  unfold soc.
  intros (_ & [(origin & g & _ & _ & ->) | (Hn & _)])%BaseSoC_init_inr; [eauto |].
  by destruct Hn.
Qed.

(** C10, as the code has it: loading the module constructs the module-level
    SoC with the default options before anything else, whether or not [main]
    runs afterwards; that construction binds every resource the constructors
    request (the reset, [cclk], the input clock, the memory clock, the memory
    pads and the eight LEDs) and leaves [tx_busy] unbound; when the file is
    run as the program, [main] constructs a second SoC from the parsed
    arguments, from a platform of its own, and builds it. *)
Theorem load_constructs_soc `{Cores} (as_main : option Args) (s0 : SoCCore)
    (og : option SoCGraph) :
  load as_main = inr (s0, og) →
  BaseSoC.__init__ BaseSoC.default_sys_clk_freq ∅ = inr s0
  ∧ load None = inr (s0, None)
  ∧ (∀ k, k ∈ (crg_keys ++ ("sdram", 0%nat) :: user_led_keys) → k ∈ bound (platform s0))
  ∧ (("tx_busy", 0%nat) ∉ bound (platform s0))
  ∧ match as_main with
    | None => og = None
    | Some args =>
        ∃ s1 gr, og = Some gr
                 ∧ BaseSoC.__init__ (args_sys_clk_freq args) (args_soc_sdram args) = inr s1
                 ∧ Builder_build s1 (args_build args) = inr gr
                 ∧ main args = inr gr
    end.
Proof.
  unfold load. destruct soc as [e | s] eqn:Hsoc; [discriminate |].
  intros Hload.
  assert (Hs : s = s0 ∧ match as_main with
                        | None => og = None
                        | Some args => ∃ gr, og = Some gr ∧ main args = inr gr
                        end).
  { destruct as_main as [args|]; [| by injection Hload as -> <-].
    destruct (main args) as [e | gr]; [discriminate |].
    injection Hload as -> <-. eauto. }
  destruct Hs as [-> Hog].
  destruct (soc_default _ Hsoc) as (origin & g & ->).
  split; [exact Hsoc |]. split; [done |]. split; [| split].
  - intros k Hk. by apply elem_of_list_to_set.
  - apply (bool_decide_eq_false_1 _). by_computation.
  - destruct as_main as [args|]; [| done].
    destruct Hog as (gr & -> & Hmain). unfold main in Hmain |- *.
    destruct (BaseSoC.__init__ _ _) as [e | s1]; [discriminate |].
    by exists s1, gr.
Qed.

Lemma load_constructs_soc_witness :
  let s0 := soc_with_sdram 66666666 0x40000000 (mkGeometry 0x2000000 128) in
  @BaseSoC.__init__ demo_cores BaseSoC.default_sys_clk_freq ∅ = inr s0
  ∧ @load demo_cores None = inr (s0, None)
  ∧ (∀ k, k ∈ (crg_keys ++ ("sdram", 0%nat) :: user_led_keys) → k ∈ bound (platform s0))
  ∧ (("tx_busy", 0%nat) ∉ bound (platform s0))
  ∧ None = (None : option SoCGraph).
Proof.
  apply (@load_constructs_soc demo_cores None). unfold load, soc.
  change BaseSoC.default_sys_clk_freq with 66666666. by rewrite demo_init.
Defined.

(** C10, as the claim words it, fails: after the module-level construction
    not every resource of the platform is bound; [tx_busy] is in the catalog
    and nothing has requested it. *)
Lemma load_leaves_tx_busy_unbound :
  ∃ s0 r, @load demo_cores None = inr (s0, None)
          ∧ lookup_resource _io "tx_busy" None = Some r
          ∧ res_key r ∉ bound (platform s0).
Proof.
  exists (soc_with_sdram 66666666 0x40000000 (mkGeometry 0x2000000 128)),
         (pad "tx_busy" 0).
  split; [| split].
  - unfold load, soc. change BaseSoC.default_sys_clk_freq with 66666666.
    by rewrite demo_init.
  - by_computation.
  - apply (bool_decide_eq_false_1 _). by_computation.
Qed.

(** * Further properties of the script *)

(** ** What the constructor can fail with *)

(** X1: on its own fresh platform the constructor never fails on a request:
    every resource it asks for is in the catalog and is asked for once.  An
    exception can only come from the multiplier, the module catalog, the
    [main_ram] entry of the memory map or the validation of the memory
    region. *)
Theorem BaseSoC_init_errors `{Cores} (f : Z) (kwargs : gmap string Z) (e : Error) :
  BaseSoC.__init__ f kwargs = inl e →
  e = UnsupportedRatioError 50000000 f
  ∨ e = UnsupportedGeometryError "MT48LC32M8" "1:1"
  ∨ e = KeyError "main_ram"
  ∨ (∃ origin, mem_map !! "main_ram" = Some origin
               ∧ e = MisalignedRegionError origin 0x2000000)
  ∨ e = CacheGeometryError 1024 128.
Proof.
  rewrite BaseSoC_init_eq. cbv zeta.
  destruct (pll_ratio_supported 50000000 f); [| intros [= <-]; tauto].
  case_bool_decide; [| discriminate].
  destruct (sdram_catalog _ _) as [g|]; [| intros [= <-]; tauto].
  destruct (mem_map !! "main_ram") as [origin|]; [| intros [= <-]; tauto].
  destruct (negb _); [intros [= <-]; tauto |].
  destruct (negb _); [intros [= <-]; eauto 10 |].
  destruct (_ <? _); [intros [= <-]; tauto | discriminate].
Qed.

Lemma BaseSoC_init_errors_witness :
  @BaseSoC.__init__ unity_cores 50000000 ∅ = inl (KeyError "main_ram")
  ∧ (KeyError "main_ram" = UnsupportedRatioError 50000000 50000000
     ∨ KeyError "main_ram" = UnsupportedGeometryError "MT48LC32M8" "1:1"
     ∨ KeyError "main_ram" = KeyError "main_ram"
     ∨ (∃ origin, @mem_map unity_cores !! "main_ram" = Some origin
                  ∧ KeyError "main_ram" = MisalignedRegionError origin 0x2000000)
     ∨ KeyError "main_ram" = CacheGeometryError 1024 128).
Proof.
  assert (Hinit : @BaseSoC.__init__ unity_cores 50000000 ∅ = inl (KeyError "main_ram"))
    by (rewrite BaseSoC_init_eq; reflexivity).
  split; [exact Hinit |].
  exact (@BaseSoC_init_errors unity_cores 50000000 ∅ _ Hinit).
Defined.

(** ** Pre-integrated memory *)

(** X2: when the SoC context reports pre-integrated memory, the constructor
    needs only the multiplier: it consults neither the module catalog nor the
    memory map, registers no memory region and no PHY, and leaves the [sdram]
    pads unbound; the clock generator still binds [sdram_clock] and drives it
    from the phase-shifted domain. *)
Theorem integrated_main_ram_skips_sdram `{Cores} (f : Z) (kwargs : gmap string Z) :
  default 0 (kwargs !! "integrated_main_ram_size") ≠ 0 →
  pll_ratio_supported 50000000 f = true →
  ∃ s, BaseSoC.__init__ f kwargs = inr s
       ∧ regions s = []
       ∧ fst <$> submodules s = ["crg"; "dna"; "leds"]
       ∧ (("sdram", 0%nat) ∉ bound (platform s))
       ∧ ("sdram_clock", 0%nat) ∈ bound (platform s)
       ∧ submodules s !! 0%nat = Some ("crg", CRG (crg_of f))
       ∧ ddr_clk <$> _CRG.specials (crg_of f) = ["sys_ps"].
Proof.
  intros Hn Hr. eexists. split.
  { rewrite BaseSoC_init_eq. cbv zeta. rewrite Hr.
    by rewrite bool_decide_eq_false_2. }
  split; [reflexivity |]. split; [reflexivity |]. split; [| split; [| done]].
  - apply (bool_decide_eq_false_1 _). by_computation.
  - apply (bool_decide_eq_true_1 _). by_computation.
Qed.

Lemma integrated_main_ram_skips_sdram_witness :
  ∃ s, @BaseSoC.__init__ demo_cores 66666666 {["integrated_main_ram_size" := 0x1000]}
       = inr s
       ∧ regions s = []
       ∧ fst <$> submodules s = ["crg"; "dna"; "leds"]
       ∧ (("sdram", 0%nat) ∉ bound (platform s))
       ∧ ("sdram_clock", 0%nat) ∈ bound (platform s)
       ∧ submodules s !! 0%nat = Some ("crg", CRG (crg_of 66666666))
       ∧ ddr_clk <$> _CRG.specials (crg_of 66666666) = ["sys_ps"].
Proof.
  apply (@integrated_main_ram_skips_sdram demo_cores 66666666
           {["integrated_main_ram_size" := 0x1000]}); [| reflexivity].
  vm_compute. discriminate.
Defined.

(** ** A memory map without [main_ram] *)

(** X3: when the memory subsystem is to be composed and the memory map has no
    [main_ram] entry, the constructor fails with [KeyError]; the module
    descriptor is built before the origin is looked up, so a module absent
    from the catalog is reported first. *)
Theorem missing_main_ram `{Cores} (f : Z) (kwargs : gmap string Z) :
  pll_ratio_supported 50000000 f = true →
  default 0 (kwargs !! "integrated_main_ram_size") = 0 →
  mem_map !! "main_ram" = None →
  BaseSoC.__init__ f kwargs
  = match sdram_catalog "MT48LC32M8" "1:1" with
    | Some _ => inl (KeyError "main_ram")
    | None => inl (UnsupportedGeometryError "MT48LC32M8" "1:1")
    end.
Proof.
  intros Hr Hn Hmm. rewrite BaseSoC_init_eq. cbv zeta. rewrite Hr, Hn, Hmm.
  rewrite bool_decide_eq_true_2 by done. by destruct (sdram_catalog _ _).
Qed.

Lemma missing_main_ram_witness :
  @BaseSoC.__init__ unity_cores 50000000 ∅ = inl (KeyError "main_ram").
Proof.
  apply (@missing_main_ram unity_cores 50000000 ∅); reflexivity.
Defined.

(** ** One clock frequency *)

(** Membership in a list written out. *)
Ltac elem_cases H :=
  repeat (apply elem_of_cons in H as [H | H]);
  [ .. | by apply elem_of_nil in H ].

(** X4: the system clock frequency given to the constructor is the one
    frequency of the design: both outputs of the multiplier, the timing of the
    memory module, and the LED core all get it; the memory is always composed
    in full-rate mode on the generic PHY. *)
Theorem one_clock_frequency `{Cores} (f : Z) (kwargs : gmap string Z) (s : SoCCore) :
  BaseSoC.__init__ f kwargs = inr s →
  sys_clk_freq s = f
  ∧ (∀ name crg, (name, CRG crg) ∈ submodules s →
       Forall (λ o, out_freq o = f) (clkouts (_CRG.pll crg)))
  ∧ (∀ name pads f', (name, LedChaser pads f') ∈ submodules s → f' = f)
  ∧ (∀ r, r ∈ regions s →
       module_clk_freq (region_module r) = f
       ∧ module_rate (region_module r) = "1:1"
       ∧ ∃ pads, region_phy r = GENSDRPHY pads).
Proof.
  intros (_ & [(origin & g & _ & _ & ->) | (_ & ->)])%BaseSoC_init_inr.
  - split; [done |]. split; [| split].
    + intros name crg Hin. cbn [submodules soc_with_sdram soc_without_sdram soc_state] in Hin. elem_cases Hin; try discriminate Hin.
      injection Hin as _ ->. by repeat constructor.
    + intros name pads f' Hin. cbn [submodules soc_with_sdram soc_without_sdram soc_state] in Hin. elem_cases Hin; try discriminate Hin.
      by injection Hin.
    + intros r Hin. cbn [regions soc_with_sdram soc_without_sdram soc_state] in Hin. elem_cases Hin. subst r. cbn [sdram_region region_module region_phy module_clk_freq module_rate]. eauto.
  - split; [done |]. split; [| split].
    + intros name crg Hin. cbn [submodules soc_with_sdram soc_without_sdram soc_state] in Hin. elem_cases Hin; try discriminate Hin.
      injection Hin as _ ->. by repeat constructor.
    + intros name pads f' Hin. cbn [submodules soc_with_sdram soc_without_sdram soc_state] in Hin. elem_cases Hin; try discriminate Hin.
      by injection Hin.
    + intros r Hin. cbn [regions soc_with_sdram soc_without_sdram soc_state] in Hin. by apply elem_of_nil in Hin.
Qed.

Lemma one_clock_frequency_witness :
  let s := soc_with_sdram 66666666 0x40000000 (mkGeometry 0x2000000 128) in
  sys_clk_freq s = 66666666
  ∧ (∀ name crg, (name, CRG crg) ∈ submodules s →
       Forall (λ o, out_freq o = 66666666) (clkouts (_CRG.pll crg)))
  ∧ (∀ name pads f', (name, LedChaser pads f') ∈ submodules s → f' = 66666666)
  ∧ (∀ r, r ∈ regions s →
       module_clk_freq (region_module r) = 66666666
       ∧ module_rate (region_module r) = "1:1"
       ∧ ∃ pads, region_phy r = GENSDRPHY pads).
Proof.
  apply (@one_clock_frequency demo_cores 66666666 ∅). exact demo_init.
Defined.

(** ** Register blocks and submodules *)

(** X5: every register block the constructor registers carries the name of a
    submodule it has added, namely the identification core or the LED core;
    submodule names and register-block names are never repeated. *)
Theorem csr_names_are_submodules `{Cores} (f : Z) (kwargs : gmap string Z)
    (s : SoCCore) :
  BaseSoC.__init__ f kwargs = inr s →
  NoDup (fst <$> submodules s)
  ∧ NoDup (csr_names s)
  ∧ (∀ n, n ∈ csr_names s →
       ∃ c, (n, c) ∈ submodules s ∧ (c = DNA ∨ ∃ pads f', c = LedChaser pads f')).
Proof.
  intros (_ & [(origin & g & _ & _ & ->) | (_ & ->)])%BaseSoC_init_inr.
  - split; [apply (bool_decide_unpack _); vm_cast_no_check I |].
    split; [apply (bool_decide_unpack _); vm_cast_no_check I |].
    intros n Hin. cbn [csr_names soc_with_sdram soc_state] in Hin.
    elem_cases Hin; subst n; eexists;
      (split; [cbn [submodules soc_with_sdram soc_state]; repeat constructor | eauto]).
  - split; [apply (bool_decide_unpack _); vm_cast_no_check I |].
    split; [apply (bool_decide_unpack _); vm_cast_no_check I |].
    intros n Hin. cbn [csr_names soc_without_sdram soc_state] in Hin.
    elem_cases Hin; subst n; eexists;
      (split; [cbn [submodules soc_without_sdram soc_state]; repeat constructor | eauto]).
Qed.

Lemma csr_names_are_submodules_witness :
  let s := soc_with_sdram 66666666 0x40000000 (mkGeometry 0x2000000 128) in
  NoDup (fst <$> submodules s)
  ∧ NoDup (csr_names s)
  ∧ (∀ n, n ∈ csr_names s →
       ∃ c, (n, c) ∈ submodules s ∧ (c = DNA ∨ ∃ pads f', c = LedChaser pads f')).
Proof.
  apply (@csr_names_are_submodules demo_cores 66666666 ∅). exact demo_init.
Defined.

(** ** Every bound resource is in use *)

(** X6: after a successful construction the resources bound on the platform
    are exactly the pads the submodules are built on, each pad used once: no
    resource is requested and then left unused, and none is shared by two
    cores. *)
Theorem bound_resources_are_used `{Cores} (f : Z) (kwargs : gmap string Z)
    (s : SoCCore) :
  BaseSoC.__init__ f kwargs = inr s →
  bound (platform s) = list_to_set (res_key <$> flat_map (core_pads ∘ snd) (submodules s))
  ∧ NoDup (res_key <$> flat_map (core_pads ∘ snd) (submodules s)).
Proof.
  intros (_ & [(origin & g & _ & _ & ->) | (_ & ->)])%BaseSoC_init_inr.
  - split; [by_computation | apply (bool_decide_unpack _); vm_cast_no_check I].
  - split; [by_computation | apply (bool_decide_unpack _); vm_cast_no_check I].
Qed.

Lemma bound_resources_are_used_witness :
  let s := soc_with_sdram 66666666 0x40000000 (mkGeometry 0x2000000 128) in
  bound (platform s) = list_to_set (res_key <$> flat_map (core_pads ∘ snd) (submodules s))
  ∧ NoDup (res_key <$> flat_map (core_pads ∘ snd) (submodules s)).
Proof.
  apply (@bound_resources_are_used demo_cores 66666666 ∅). exact demo_init.
Defined.

(** ** One clock generator per platform *)

(** X7: the clock generator takes its pins for itself: on the platform a
    successful construction of [_CRG] leaves behind, a second construction
    fails at its first request, whatever frequency it is given. *)
Theorem second_CRG_fails `{Cores} (f f' : Z) (crg : _CRG.t) (p : XilinxPlatform) :
  _CRG.__init__ f Platform.__init__ = inr (crg, p) →
  _CRG.__init__ f' p = inl (ResourceAlreadyBoundError "cpu_reset" 0).
Proof.
  intros (_ & _ & ->)%CRG_init_inr. unfold _CRG.__init__.
  eapply bind_raise. by_computation.
Qed.

Lemma second_CRG_fails_witness :
  @_CRG.__init__ demo_cores 50000000 (platform_with crg_keys)
  = inl (ResourceAlreadyBoundError "cpu_reset" 0).
Proof.
  apply (@second_CRG_fails demo_cores 66666666 50000000 (crg_of 66666666)).
  by_computation.
Defined.

(** ** Finalization over existing constraints *)

(** X8: finalization sets the constraint of [clk50] to 20 ns and keeps every
    other constraint of the platform as it is, whatever the table held
    before; finalizing a second time changes nothing. *)
Theorem do_finalize_idempotent (fragment fragment' : Fragment)
    (b : gset (string * nat)) (m : gmap (string * nat) float) :
  ("clk50", 0%nat) ∈ b →
  let p := set_period_constraints (λ _, m) (set_bound (λ _, b) Platform.__init__) in
  let p' := set_period_constraints (λ _, <[("clk50", 0%nat) := 20%float]> m) p in
  Platform.do_finalize fragment p = inr (tt, p')
  ∧ Platform.do_finalize fragment' p' = inr (tt, p')
  ∧ ∀ k, k ≠ ("clk50", 0%nat) → period_constraints p' !! k = m !! k.
Proof.
  intros Hin p p'.
  assert (Hrun : ∀ fr m0,
            Platform.do_finalize fr
              (set_period_constraints (λ _, m0) (set_bound (λ _, b) Platform.__init__))
            = inr (tt, set_period_constraints
                         (λ _, <[("clk50", 0%nat) := 20%float]> m0)
                         (set_bound (λ _, b) Platform.__init__))).
  { intros fr m0. unfold Platform.do_finalize, XilinxPlatform_do_finalize.
    pose proof (lookup_request_clk50 b m0 Hin) as H0. cbv zeta in H0.
    etrans; [ eapply bind_ok; etrans; [ eapply bind_ok; reflexivity | cbv beta ];
              etrans; [ eapply bind_ok; exact H0 | cbv beta ]; reflexivity | cbv beta ].
    pose proof (lookup_request_clk50 b (<[("clk50", 0%nat) := 20%float]> m0) Hin) as H1.
    cbv zeta in H1.
    etrans; [ eapply bind_ok; etrans; [ | exact H1 ]; f_equal | cbv beta ].
    unfold add_period_constraint, modify, set_period_constraints.
    cbn [device io default_clk_name default_clk_period bound additional_commands
         period_constraints].
    change (res_key (pad "clk50" 0)) with ("clk50", 0%nat).
    change (1e9 / 50e6)%float with 20%float.
    by rewrite insert_insert_eq. }
  split; [apply Hrun |]. split.
  - unfold p', p. etrans; [apply Hrun |].
    unfold set_period_constraints.
    cbn [device io default_clk_name default_clk_period bound additional_commands
         period_constraints].
    by rewrite insert_insert_eq.
  - intros k Hk. cbn. by rewrite lookup_insert_ne.
Qed.

Lemma do_finalize_idempotent_witness :
  let m : gmap (string * nat) float := {[("sdram_clock", 0%nat) := 15%float]} in
  let p := set_period_constraints (λ _, m)
             (set_bound (λ _, {[("clk50", 0%nat)]}) Platform.__init__) in
  let p' := set_period_constraints (λ _, <[("clk50", 0%nat) := 20%float]> m) p in
  Platform.do_finalize [] p = inr (tt, p')
  ∧ Platform.do_finalize [mkClockDomain "sys" false] p' = inr (tt, p')
  ∧ ∀ k, k ≠ ("clk50", 0%nat) → period_constraints p' !! k = m !! k.
Proof.
  apply (do_finalize_idempotent [] [mkClockDomain "sys" false] {[("clk50", 0%nat)]}
           {[("sdram_clock", 0%nat) := 15%float]}).
  by apply elem_of_singleton.
Defined.

(** ** The catalog *)

(** X9: the catalog names every resource once: looking an entry up by its
    name and number gives that entry back, with its pins, and on a fresh
    platform a request for it succeeds and binds that entry alone. *)
Theorem catalog_round_trip (r : Resource) :
  r ∈ _io →
  lookup_resource _io (res_name r) (Some (res_number r)) = Some r
  ∧ request (res_name r) (Some (res_number r)) false Platform.__init__
    = inr (r, platform_with [res_key r]).
Proof.
  intros Hin. unfold _io in Hin. elem_cases Hin; subst r; split; by_computation.
Qed.

Lemma catalog_round_trip_witness :
  lookup_resource _io "cclk" (Some 0%nat) = Some (pad "cclk" 0)
  ∧ request "cclk" (Some 0%nat) false Platform.__init__
    = inr (pad "cclk" 0, platform_with [("cclk", 0%nat)]).
Proof.
  apply (catalog_round_trip (pad "cclk" 0)).
  unfold _io. do 12 apply list_elem_of_further. apply list_elem_of_here.
Defined.

(** X10: no physical pin is assigned twice: over the whole catalog, the pins
    of subsignals included, the 44 pin identifiers are pairwise distinct. *)
Theorem catalog_pins_distinct :
  NoDup (flat_map resource_pins _io) ∧ length (flat_map resource_pins _io) = 44%nat.
Proof.
  split; [apply (bool_decide_unpack _); vm_cast_no_check I | by_computation].
Qed.

(** ** Loading the module with defaults that cannot be built *)

(** X11: the module-level construction runs before [main] and with the
    default frequency, whatever the command line says: when the multiplier
    cannot reach 66,666,666 Hz, loading the file fails with that error, also
    when it is run with a frequency the multiplier supports. *)
Theorem load_fails_on_defaults `{Cores} (as_main : option Args) :
  pll_ratio_supported 50000000 66666666 = false →
  load as_main = inl (UnsupportedRatioError 50000000 66666666).
Proof.
  intros Hr. unfold load, soc. change BaseSoC.default_sys_clk_freq with 66666666.
  rewrite BaseSoC_init_eq. cbv zeta. by rewrite Hr.
Qed.

Lemma load_fails_on_defaults_witness :
  @load unity_cores (Some (mkArgs false 50000000 {["integrated_main_ram_size" := 1]}))
  = inl (UnsupportedRatioError 50000000 66666666)
  ∧ ∃ gr, @main unity_cores (mkArgs false 50000000 {["integrated_main_ram_size" := 1]})
          = inr gr.
Proof.
  split.
  - apply (@load_fails_on_defaults unity_cores). reflexivity.
  - eexists. apply (@main_without_sdram unity_cores
                      (mkArgs false 50000000 {["integrated_main_ram_size" := 1]}) 1).
    rewrite BaseSoC_init_eq. reflexivity.
Defined.

(** ** The platform of a constructed SoC *)

(** X12: the constructor changes nothing of its platform but the set of bound
    resources: the device, the catalog, the default clock and the bitstream
    command are those of [Platform()], and no timing constraint is emitted
    before finalization. *)
Theorem constructor_keeps_platform `{Cores} (f : Z) (kwargs : gmap string Z)
    (s : SoCCore) :
  BaseSoC.__init__ f kwargs = inr s →
  platform s = set_bound (λ _, bound (platform s)) Platform.__init__
  ∧ device (platform s) = "xc6slx9-3-tqg144"
  ∧ additional_commands (platform s) = ["write_bitstream -force -bin_file {build_name}"]
  ∧ period_constraints (platform s) = ∅.
Proof.
  by intros (_ & [(origin & g & _ & _ & ->) | (_ & ->)])%BaseSoC_init_inr.
Qed.

Lemma constructor_keeps_platform_witness :
  let s := soc_with_sdram 66666666 0x40000000 (mkGeometry 0x2000000 128) in
  platform s = set_bound (λ _, bound (platform s)) Platform.__init__
  ∧ device (platform s) = "xc6slx9-3-tqg144"
  ∧ additional_commands (platform s) = ["write_bitstream -force -bin_file {build_name}"]
  ∧ period_constraints (platform s) = ∅.
Proof.
  apply (@constructor_keeps_platform demo_cores 66666666 ∅). exact demo_init.
Defined.
